(** * Keithley control panels: the picoammeter and the delta-mode nanovoltmeter

    A shallow embedding of the two controllers
    ([Picoammeter/src/pico_controller.py] and
    [Nanovoltmeter/src/Nanovoltmeter_controller.py]) and the properties of
    their run-state accounting, SCPI sequencing, error handling, locking
    and CSV export.

    Python floats are IEEE binary64 numbers: they are modelled by Rocq's
    primitive floats, so [add], [sub] and [opp] below are the very operations
    the interpreter performs.  The instrument bus, the wall clock and the
    file system are the environment: a [world] carries the replies the VISA
    driver will give, the readings [time.time()] will return, and the files
    on disk (a text file is the list of its lines).  Everything a handler
    does to the outside is appended to the world's [trace].  The two loops
    that never end by themselves take fuel: the number of turns they are
    followed for. *)

From Stdlib Require Import PrimFloat FloatOps SpecFloat ZArith Ascii String List Lia.
From stdpp Require Import base gmap strings list pretty.

Open Scope string_scope.
Open Scope list_scope.

(* 0.1, 0.3 and the like are rounded to the nearest binary64 value, as Python
   rounds its literals. *)
Set Warnings "-inexact-float".

(** ** Python strings *)

Module Py.

(** Truthiness of a [str]: the empty string is false. *)
Definition truthy (s : string) : bool :=
  match s with EmptyString => false | String _ _ => true end.

(** [s.split(sep)] for a one-character separator: never an empty list. *)
Fixpoint split_on (sep : ascii) (s : string) : list string :=
  match s with
  | EmptyString => [EmptyString]
  | String c rest =>
      if Ascii.eqb c sep then EmptyString :: split_on sep rest
      else match split_on sep rest with
           | [] => [String c EmptyString]
           | field :: fields => String c field :: fields
           end
  end.

(** [s.replace(c, "")] for a one-character [c]. *)
Fixpoint remove_char (c : ascii) (s : string) : string :=
  match s with
  | EmptyString => EmptyString
  | String d rest =>
      if Ascii.eqb d c then remove_char c rest else String d (remove_char c rest)
  end.

(** The double quote, as a one-character string. *)
Definition dquote : string := String (ascii_of_nat 34) EmptyString.

(** [s[:n]] and [s[n:]]. *)
Fixpoint take (n : nat) (s : string) : string :=
  match n, s with
  | S k, String c rest => String c (take k rest)
  | _, _ => EmptyString
  end.

Fixpoint skip (n : nat) (s : string) : string :=
  match n, s with
  | S k, String _ rest => skip k rest
  | _, _ => s
  end.

(** [s.rfind(c)] for the characters that satisfy [p]: the last index where
    one stands, or [-1]; [i] is the index of the head of [s] and [last] the
    result so far. *)
Fixpoint rfind_from (p : ascii → bool) (s : string) (i last : Z) : Z :=
  match s with
  | EmptyString => last
  | String c rest => rfind_from p rest (i + 1)%Z (if p c then i else last)
  end.

Definition rfind (p : ascii → bool) (s : string) : Z := rfind_from p s 0 (-1).

Definition is_dot (c : ascii) : bool := Ascii.eqb c ".".

(** Whether every character of [s] is a dot. *)
Fixpoint all_dots (s : string) : bool :=
  match s with
  | EmptyString => true
  | String c rest => is_dot c && all_dots rest
  end.

(** [os.path.splitext(p)], with [is_sep] the platform's path separators:
    the cut is at the last dot, when it stands after the last separator and
    some character between the two is not a dot. *)
Definition splitext (is_sep : ascii → bool) (p : string) : string * string :=
  let sep_index := rfind is_sep p in
  let dot_index := rfind is_dot p in
  if (sep_index <? dot_index)%Z
     && negb (all_dots (take (Z.to_nat (dot_index - (sep_index + 1)))
                             (skip (Z.to_nat (sep_index + 1)) p)))
  then (take (Z.to_nat dot_index) p, skip (Z.to_nat dot_index) p)
  else (p, EmptyString).

(** The interpreter's builtins the controllers call.  Their code is not part
    of the repository, so they are taken as they come: [strip] is
    [str.strip()], [to_float] is [float(s)] and [to_int] is [int(s)] (the
    left injection carries the text of the [ValueError]), [fmt_float] and
    [fmt_int] are what [str] and an f-string print for a float and an int,
    [fmt_spec spec x] is [format(x, spec)], and [is_sep] tells the path
    separators of the platform ([os.sep] and [os.altsep]). *)
Class Builtins := {
  strip : string → string;
  to_float : string → string + float;
  to_int : string → string + Z;
  fmt_float : float → string;
  fmt_spec : string → float → string;
  fmt_int : Z → string;
  is_sep : ascii → bool;
}.

End Py.

(** A small interpreter to run the model on examples: ASCII blanks, decimal
    integers, POSIX paths; a float is printed as mantissa and exponent. *)

Module Demo.

Definition is_blank (c : ascii) : bool :=
  Ascii.eqb c " " || Ascii.eqb c "009" || Ascii.eqb c "010" || Ascii.eqb c "013".

Fixpoint lstrip (s : string) : string :=
  match s with
  | String c rest => if is_blank c then lstrip rest else s
  | EmptyString => EmptyString
  end.

Fixpoint rstrip (s : string) : string :=
  match s with
  | EmptyString => EmptyString
  | String c rest =>
      match rstrip rest with
      | EmptyString => if is_blank c then EmptyString else String c EmptyString
      | kept => String c kept
      end
  end.

Definition digit (c : ascii) : option Z :=
  let n := Z.of_nat (nat_of_ascii c) in
  if (48 <=? n)%Z && (n <=? 57)%Z then Some (n - 48)%Z else None.

Fixpoint digits (s : string) (acc : Z) : option Z :=
  match s with
  | EmptyString => Some acc
  | String c rest =>
      match digit c with
      | Some d => digits rest (10 * acc + d)
      | None => None
      end
  end.

Definition to_int (s : string) : string + Z :=
  match lstrip (rstrip s) with
  | EmptyString => inl "invalid literal for int()"
  | String "-" rest =>
      match rest, digits rest 0 with
      | String _ _, Some n => inr (- n)%Z
      | _, _ => inl "invalid literal for int()"
      end
  | body =>
      match digits body 0 with
      | Some n => inr n
      | None => inl "invalid literal for int()"
      end
  end.

(** The float nearest to an integer. *)
Definition float_of_Z (n : Z) : float :=
  match n with
  | Z0 => 0%float
  | Zpos p => SF2Prim (S754_finite false p 0)
  | Zneg p => SF2Prim (S754_finite true p 0)
  end.

Definition to_float (s : string) : string + float :=
  match to_int s with
  | inr n => inr (float_of_Z n)
  | inl _ => inl "could not convert string to float"
  end.

Definition fmt_float (x : float) : string :=
  match Prim2SF x with
  | S754_zero s => if s then "-0.0" else "0.0"
  | S754_infinity s => if s then "-inf" else "inf"
  | S754_nan => "nan"
  | S754_finite s m e =>
      (if s then "-" else "") +:+ pretty (Zpos m) +:+ "p" +:+ pretty e
  end.

#[export] Instance builtins : Py.Builtins := {|
  Py.strip s := lstrip (rstrip s);
  Py.to_float := to_float;
  Py.to_int := to_int;
  Py.fmt_float := fmt_float;
  Py.fmt_spec _ := fmt_float;
  Py.fmt_int := pretty;
  Py.is_sep c := Ascii.eqb c "/";
|}.

End Demo.

(** ** Effects: the world, outcomes and the handler monad *)

Module Eff.

(** How a Python block ends: with a value, with an exception (its [str(e)]),
    or not yet, when a loop is still spinning after the turns it was followed
    for. *)
Inductive outcome (A : Type) : Type :=
| Val (a : A)
| Exn (msg : string)
| Spin.
Arguments Val {A} a.
Arguments Exn {A} msg.
Arguments Spin {A}.

(** What the VISA driver does on one call: it answers, or it raises. *)
Inductive reply : Type :=
| Answers (s : string)
| Raises (msg : string).

(** What a handler does to the outside, in the order it does it.  [EvSet f]
    is an assignment to the attribute [f] of the application object, or a
    mutation in place of the list it holds. *)
Inductive event {Fld Sig : Type} : Type :=
| EvAcquire
| EvRelease
| EvSet (f : Fld)
| EvWrite (cmd : string)
| EvQuery (cmd : string)
| EvSleep (secs : float)
| EvStatus (msg : string)
| EvEmit (s : Sig)
| EvDialog (title text : string).
Arguments event : clear implicits.

Section Monad.
Context {St Fld Sig : Type}.

Local Abbreviation ev := (event Fld Sig).

Record world : Type := World {
  self : St;
  trace : list ev;
  bus : nat → reply;
  bus_calls : nat;
  clock : nat → float;
  clock_calls : nat;
  files : gmap string (list string);
}.

Definition M (A : Type) : Type := world → outcome A * world.

Definition ret {A} (a : A) : M A := λ w, (Val a, w).

Definition bind {A B} (m : M A) (k : A → M B) : M B :=
  λ w, match m w with
       | (Val a, w1) => k a w1
       | (Exn msg, w1) => (Exn msg, w1)
       | (Spin, w1) => (Spin, w1)
       end.

Definition raise {A} (msg : string) : M A := λ w, (Exn msg, w).

(** A loop that has not ended after the turns it was followed for. *)
Definition spin {A} : M A := λ w, (Spin, w).

(** [try: m  except Exception as e: h(str(e))]. *)
Definition try_except {A} (m : M A) (h : string → M A) : M A :=
  λ w, match m w with
       | (Exn msg, w1) => h msg w1
       | r => r
       end.

Definition log (e : ev) : M unit :=
  λ w, (Val tt, World (self w) (trace w ++ [e]) (bus w) (bus_calls w)
                     (clock w) (clock_calls w) (files w)).

Definition gets {A} (f : St → A) : M A := λ w, (Val (f (self w)), w).

(** An attribute of the application object changes (no event: widgets,
    local views). *)
Definition modify (upd : St → St) : M unit :=
  λ w, (Val tt, World (upd (self w)) (trace w) (bus w) (bus_calls w)
                     (clock w) (clock_calls w) (files w)).

(** [self.f = v], recorded in the trace. *)
Definition assign (f : Fld) (upd : St → St) : M unit :=
  bind (log (EvSet f)) (λ _, modify upd).

(** One call of the driver consumes the next reply of the bus. *)
Definition next_reply : M reply :=
  λ w, (Val (bus w (bus_calls w)),
        World (self w) (trace w) (bus w) (S (bus_calls w))
              (clock w) (clock_calls w) (files w)).

Definition inst_write (cmd : string) : M unit :=
  bind (log (EvWrite cmd)) (λ _,
  bind next_reply (λ r,
  match r with
  | Answers _ => ret tt
  | Raises msg => raise msg
  end)).

Definition inst_query (cmd : string) : M string :=
  bind (log (EvQuery cmd)) (λ _,
  bind next_reply (λ r,
  match r with
  | Answers s => ret s
  | Raises msg => raise msg
  end)).

(** [time.time()]. *)
Definition time_time : M float :=
  λ w, (Val (clock w (clock_calls w)),
        World (self w) (trace w) (bus w) (bus_calls w)
              (clock w) (S (clock_calls w)) (files w)).

Definition sleep (secs : float) : M unit := log (EvSleep secs).
Definition status (msg : string) : M unit := log (EvStatus msg).
Definition emit (s : Sig) : M unit := log (EvEmit s).
Definition dialog (title text : string) : M unit := log (EvDialog title text).

(** [with self.lock: m].  The lock is released however the block ends; a
    block that is still spinning still holds it. *)
Definition with_lock {A} (m : M A) : M A :=
  λ w, match bind (log EvAcquire) (λ _, m) w with
       | (Spin, w1) => (Spin, w1)
       | (r, w1) => (r, snd (log EvRelease w1))
       end.

Definition write_file (name : string) (content : list string) : M unit :=
  λ w, (Val tt, World (self w) (trace w) (bus w) (bus_calls w)
                     (clock w) (clock_calls w) (<[name := content]> (files w))).

Definition path_exists (name : string) : M bool :=
  λ w, (Val (bool_decide (is_Some (files w !! name))), w).

(** A builtin that returns or raises. *)
Definition lift {A} (r : string + A) : M A :=
  match r with inl msg => raise msg | inr a => ret a end.

(** [for x in xs: body(x)]. *)
Fixpoint for_each {A} (xs : list A) (body : A → M unit) : M unit :=
  match xs with
  | [] => ret tt
  | x :: rest => bind (body x) (λ _, for_each rest body)
  end.

(** [[f(x) for x in xs]] for an [f] that may raise. *)
Fixpoint map_m {A B} (f : A → M B) (xs : list A) : M (list B) :=
  match xs with
  | [] => ret []
  | x :: rest => bind (f x) (λ y, bind (map_m f rest) (λ ys, ret (y :: ys)))
  end.

(** [xs[i]]. *)
Definition item {A} (xs : list A) (i : nat) : M A :=
  match xs !! i with
  | Some x => ret x
  | None => raise "list index out of range"
  end.

(** *** Reading a trace *)

(** The commands handed to the driver, writes and queries alike. *)
Fixpoint sent (tr : list ev) : list string :=
  match tr with
  | [] => []
  | EvWrite cmd :: rest => cmd :: sent rest
  | EvQuery cmd :: rest => cmd :: sent rest
  | _ :: rest => sent rest
  end.

(** The status messages shown. *)
Fixpoint statuses (tr : list ev) : list string :=
  match tr with
  | [] => []
  | EvStatus msg :: rest => msg :: statuses rest
  | _ :: rest => statuses rest
  end.

(** The signals emitted. *)
Fixpoint emitted (tr : list ev) : list Sig :=
  match tr with
  | [] => []
  | EvEmit s :: rest => s :: emitted rest
  | _ :: rest => emitted rest
  end.

(** Every assignment to an attribute selected by [shared] happens between an
    acquire and the matching release; [held] says whether the lock is held
    where the trace starts. *)
Fixpoint guarded (shared : Fld → bool) (held : bool) (tr : list ev) : bool :=
  match tr with
  | [] => true
  | EvAcquire :: rest => guarded shared true rest
  | EvRelease :: rest => guarded shared false rest
  | EvSet f :: rest => (negb (shared f) || held) && guarded shared held rest
  | _ :: rest => guarded shared held rest
  end.

(** Whether the lock is held after [tr], when [held] says whether it was
    before. *)
Fixpoint holds (held : bool) (tr : list ev) : bool :=
  match tr with
  | [] => held
  | EvAcquire :: rest => holds true rest
  | EvRelease :: rest => holds false rest
  | _ :: rest => holds held rest
  end.

(** *** Specifications of handlers by what they append to the trace *)

(** An outcome without its value. *)
Definition kind {A} (r : outcome A) : outcome unit :=
  match r with
  | Val _ => Val tt
  | Exn msg => Exn msg
  | Spin => Spin
  end.

(** [m] only ever appends to the trace, and what it appends satisfies [Q]
    together with the way [m] ends. *)
Definition yields {A} (m : M A) (Q : outcome unit → list ev → Prop) : Prop :=
  ∀ w, ∃ evs, trace (snd (m w)) = trace w ++ evs ∧ Q (kind (fst (m w))) evs.

(** A specification that holds of nothing done and of one block after
    another. *)
Class Stable (Q : outcome unit → list ev → Prop) : Prop := {
  stable_nil : Q (Val tt) [];
  stable_app : ∀ evs1 r evs2, Q (Val tt) evs1 → Q r evs2 → Q r (evs1 ++ evs2);
}.

(** What a block under the lock may append: no acquire, no release, and it
    ends. *)
Definition in_lock (shared : Fld → bool) (r : outcome unit) (evs : list ev)
    : Prop :=
  r ≠ Spin ∧ guarded shared true evs = true ∧ holds true evs = true.

(** What a handler that respects the lock appends, started with the lock
    free: the attributes selected by [shared] are only written while it is
    held, and it is free again at the end. *)
Definition disciplined (shared : Fld → bool) (r : outcome unit) (evs : list ev)
    : Prop :=
  guarded shared false evs = true ∧ holds false evs = false.

(** Nothing is emitted. *)
Definition silent (r : outcome unit) (evs : list ev) : Prop := emitted evs = [].



(** No exception leaves [m]. *)
Definition safe {A} (m : M A) : Prop := ∀ w msg, fst (m w) ≠ Exn msg.

(** What was appended to the trace between [w] and [w']. *)
Definition since (w w' : world) : list ev := drop (length (trace w)) (trace w').

(** What [time.time()] returns when it is called next. *)
Definition now_of (w : world) : float := clock w (clock_calls w).

End Monad.

Arguments world : clear implicits.
Arguments M : clear implicits.

End Eff.

Export Eff.

#[global] Instance M_ret {St Fld Sig} : MRet (M St Fld Sig) := @ret St Fld Sig.
#[global] Instance M_bind {St Fld Sig} : MBind (M St Fld Sig) :=
  λ A B k m, bind m k.

(** ** pandas: a frame of float columns written as CSV *)

Module Pandas.
Section Frames.
Context `{Py.Builtins}.

Definition join_with (sep : string) (cells : list string) : string :=
  match cells with
  | [] => ""
  | c :: cs => fold_left (λ acc x, acc +:+ sep +:+ x) cs c
  end.

Definition same_length (cols : list (list float)) : bool :=
  match cols with
  | [] => true
  | c :: cs => forallb (λ d, Nat.eqb (length d) (length c)) cs
  end.

Definition n_rows (cols : list (list float)) : nat :=
  match cols with [] => 0 | c :: _ => length c end.

(** Row [i] of the frame: the [i]-th entry of every column. *)
Definition row (cols : list (list float)) (i : nat) : list float :=
  omap (λ c : list float, c !! i) cols.

(** [pd.DataFrame({name: column, ...}).to_csv(_, index=False)]: the lines of
    the file, or the text of the [ValueError] the constructor raises when the
    columns differ in length. *)
Definition to_csv (frame : list (string * list float)) : string + list string :=
  let cols := map snd frame in
  if same_length cols then
    inr (join_with "," (map fst frame)
         :: map (λ i, join_with "," (map Py.fmt_float (row cols i)))
                (seq 0 (n_rows cols)))
  else inl "All arrays must be of the same length".

End Frames.
End Pandas.

(** ** The picoammeter controller ([pico_controller.py]) *)

Module Pico.

(** The attributes of [KeithleyApp] the two threads share. *)
Inductive field : Type :=
| Frunning | Fpaused | Ftotal_run_time | Flast_resume_time
| Freadings | Ftimestamps.

(** [WorkerSignals.new_data]; [status] is [EvStatus]. *)
Inductive signal : Type :=
| new_data (elapsed reading : float).

Record state : Type := State {
  readings : list float;
  timestamps : list float;
  running : bool;
  paused : bool;
  total_run_time : float;
  last_resume_time : option float;
  btn_play : bool;                (* btn_play.isEnabled() *)
  btn_pause : bool;               (* btn_pause.isEnabled() *)
  filename_input : string;        (* filename_input.text() *)
}.

Definition set_readings v s := State v (timestamps s) (running s) (paused s)
  (total_run_time s) (last_resume_time s) (btn_play s) (btn_pause s) (filename_input s).
Definition set_timestamps v s := State (readings s) v (running s) (paused s)
  (total_run_time s) (last_resume_time s) (btn_play s) (btn_pause s) (filename_input s).
Definition set_running v s := State (readings s) (timestamps s) v (paused s)
  (total_run_time s) (last_resume_time s) (btn_play s) (btn_pause s) (filename_input s).
Definition set_paused v s := State (readings s) (timestamps s) (running s) v
  (total_run_time s) (last_resume_time s) (btn_play s) (btn_pause s) (filename_input s).
Definition set_total_run_time v s := State (readings s) (timestamps s) (running s) (paused s)
  v (last_resume_time s) (btn_play s) (btn_pause s) (filename_input s).
Definition set_last_resume_time v s := State (readings s) (timestamps s) (running s) (paused s)
  (total_run_time s) v (btn_play s) (btn_pause s) (filename_input s).
Definition set_btn_play v s := State (readings s) (timestamps s) (running s) (paused s)
  (total_run_time s) (last_resume_time s) v (btn_pause s) (filename_input s).
Definition set_btn_pause v s := State (readings s) (timestamps s) (running s) (paused s)
  (total_run_time s) (last_resume_time s) (btn_play s) v (filename_input s).

Definition set_filename_input v s := State (readings s) (timestamps s) (running s) (paused s)
  (total_run_time s) (last_resume_time s) (btn_play s) (btn_pause s) v.

Abbreviation world := (Eff.world state field signal).
Abbreviation M := (Eff.M state field signal).
Abbreviation event := (Eff.event field signal).

(** The state [__init__] leaves. *)
Definition init : state :=
  State [] [] false false 0%float None true false "readings.csv".

(** [float - None]: the [TypeError] Python raises. *)
Definition minus_resume (now : float) (resume : option float) : M float :=
  match resume with
  | Some t => mret (now - t)%float
  | None => raise "unsupported operand type(s) for -: 'float' and 'NoneType'"
  end.

Section Handlers.
Context `{Py.Builtins}.

Definition setup_instrument : M unit :=
  inst_write "*RST";;
  inst_write "*CLS";;
  sleep 0.3;;
  inst_write "FUNC 'CURR:DC'";;
  inst_write "CONF:CURR";;
  inst_write "SENS:CURR:RANG:AUTO ON";;
  inst_write "SENS:CURR:NPLC 3";;
  inst_write "SENS:AVER:STAT ON";;
  inst_write "SENS:AVER:COUN 5";;
  inst_write "SENS:AVER:TCON REP";;
  inst_write "TRIG:SOUR IMM";;
  inst_write "TRIG:COUN 1".

(** [play_reading]: the block under the lock says whether it fell through
    to the code after it ([True]) or returned early ([False]). *)
Definition play_reading : M unit :=
  go ← with_lock (
    s ← gets id;
    if running s && negb (paused s) then
      status "Already running.";; mret false
    else
      (if negb (running s) && negb (paused s) then setup_instrument else mret tt);;
      assign Frunning (set_running true);;
      assign Fpaused (set_paused false);;
      now ← time_time;
      assign Flast_resume_time (set_last_resume_time (Some now));;
      mret true);
  if go : bool then
    modify (set_btn_play false);;
    modify (set_btn_pause true);;
    status "Measurement started or resumed."
  else mret tt.

Definition pause_reading : M unit :=
  go ← with_lock (
    s ← gets id;
    if negb (running s) || paused s then
      status "Not running or already paused.";; mret false
    else
      assign Fpaused (set_paused true);;
      now ← time_time;
      last ← gets last_resume_time;
      run_duration ← minus_resume now last;
      total ← gets total_run_time;
      assign Ftotal_run_time (set_total_run_time (total + run_duration)%float);;
      mret true);
  if go : bool then
    modify (set_btn_pause false);;
    modify (set_btn_play true);;
    status "Measurement paused."
  else mret tt.

(** [clear_data]; [yes] is the answer to the confirmation dialog. *)
Definition clear_data (yes : bool) : M unit :=
  if yes then
    assign Freadings (set_readings []);;
    assign Ftimestamps (set_timestamps []);;
    assign Frunning (set_running false);;
    assign Fpaused (set_paused false);;
    assign Ftotal_run_time (set_total_run_time 0%float);;
    assign Flast_resume_time (set_last_resume_time None);;
    modify (set_btn_play true);;
    modify (set_btn_pause false);;
    status "Data cleared.";;
    dialog "Cleared" "Data cleared."
  else mret tt.

(** The name [save_data] writes to when [filename] exists; [stamp] is the
    text of [datetime.now().strftime("%Y-%m-%d_at_%H:%M:%S")]. *)
Definition stamped (filename stamp : string) : string :=
  let '(base, ext) := Py.splitext Py.is_sep filename in
  base +:+ "_" +:+ stamp +:+ ext.

Definition save_data (stamp : string) : M unit :=
  text ← gets filename_input;
  let filename := Py.strip text in
  if negb (Py.truthy filename) then status "Please enter a filename."
  else
    there ← path_exists filename;
    let filename := if there : bool then stamped filename stamp else filename in
    ts ← gets timestamps;
    rs ← gets readings;
    lines ← lift (Pandas.to_csv [("Time", ts); ("current_A", rs)]);
    write_file filename lines;;
    status ("Data saved to " +:+ filename);;
    dialog "Saved" "Data saved.".

(** The slot of [new_data], run by the GUI thread. *)
Definition handle_new_data (elapsed reading : float) : M unit :=
  assign Ftimestamps (λ s, set_timestamps (timestamps s ++ [elapsed]) s);;
  assign Freadings (λ s, set_readings (readings s ++ [reading]) s);;
  status ("Reading: " +:+ Py.fmt_spec ".3e" reading +:+ " A @ "
          +:+ Py.fmt_spec ".1f" elapsed +:+ " s").

(** [reply.strip().split(",")[0]], then [float(_.replace("A", "").strip())]. *)
Definition parse_reading (reply : string) : M float :=
  let val_str := hd EmptyString (Py.split_on "," (Py.strip reply)) in
  lift (Py.to_float (Py.strip (Py.remove_char "A" val_str))).

(** The flags and times a turn of [update_loop] reads under the lock. *)
Definition snapshot : M (bool * bool * float * option float) :=
  with_lock (
    s ← gets id;
    mret (running s, paused s, total_run_time s, last_resume_time s)).

(** The body of the [try] of [update_loop]. *)
Definition acquire (total_time : float) (resume_time : option float) : M unit :=
  reply ← inst_query "READ?";
  val ← parse_reading reply;
  now ← time_time;
  current_run_duration ← minus_resume now resume_time;
  let elapsed := (total_time + current_run_duration)%float in
  emit (new_data elapsed val);;
  sleep 0.1.

(** Its [except Exception as e]. *)
Definition acquisition_failed (e : string) : M unit :=
  status ("Error: " +:+ e);;
  with_lock (assign Frunning (set_running false);;
             assign Fpaused (set_paused false));;
  modify (set_btn_play true);;
  modify (set_btn_pause false).

(** One turn of the [while True] of [update_loop]. *)
Definition update_iteration : M unit :=
  snap ← snapshot;
  let '(is_running, is_paused, total_time, resume_time) := snap in
  if is_running && negb is_paused then
    try_except (acquire total_time resume_time) acquisition_failed
  else sleep 0.3.

(** [update_loop] never returns: [fuel] turns of it leave it spinning. *)
Fixpoint update_loop (fuel : nat) : M unit :=
  match fuel with
  | 0 => spin
  | S n => update_iteration;; update_loop n
  end.

(** What happens to the application, one thing at a time: a button is
    pressed, the file name is edited (typed, or picked in [browse_file]),
    the worker makes a turn, a queued [new_data] is delivered. *)
Inductive action : Type :=
| Play
| Pause
| Clear (yes : bool)
| Save (stamp : string)
| Edit (text : string)
| Turn
| Deliver (elapsed reading : float).

Definition perform (a : action) : M unit :=
  match a with
  | Play => play_reading
  | Pause => pause_reading
  | Clear yes => clear_data yes
  | Save stamp => save_data stamp
  | Edit text => modify (set_filename_input text)
  | Turn => update_iteration
  | Deliver elapsed reading => handle_new_data elapsed reading
  end.

(** A history of actions; an exception that escapes a slot is reported by
    the toolkit and the history goes on from the world it left. *)
Fixpoint run (history : list action) (w : world) : world :=
  match history with
  | [] => w
  | a :: rest => run rest (snd (perform a w))
  end.

(** *** The run segments of a history

    The reading of [total_run_time] as a sum: a Pause pressed while running
    and not paused closes the segment that began at [last_resume_time]; a
    confirmed Clear forgets every segment. *)






(** The attributes the single lock is there for. *)
Definition shared (f : field) : bool :=
  match f with
  | Frunning | Fpaused | Ftotal_run_time | Flast_resume_time => true
  | Freadings | Ftimestamps => false
  end.

End Handlers.
End Pico.

(** ** The delta-mode controller ([Nanovoltmeter_controller.py]) *)

Module Nano.

(** The attributes of [KeithleyDeltaApp] the two threads share. *)
Inductive field : Type :=
| Frunning | Fexiting | Fstart_time | Ftimes | Fvoltages | Fcurrents | FNPLC.

(** [WorkerSignals.new_point] and [WorkerSignals.done]. *)
Inductive signal : Type :=
| new_point (elapsed voltage current : float)
| done.

Record state : Type := State {
  running : bool;
  exiting : bool;
  start_time : option float;
  times : list float;
  voltages : list float;
  currents : list float;
  NPLC : float;
  btn_start : bool;               (* btn_start.isEnabled() *)
  nplc_spin : float;              (* the values the widgets hold *)
  delta_I : float;
  delta_count : Z;
  delta_delay : float;
}.

Definition set_running v s := State v (exiting s) (start_time s) (times s)
  (voltages s) (currents s) (NPLC s) (btn_start s) (nplc_spin s) (delta_I s)
  (delta_count s) (delta_delay s).
Definition set_exiting v s := State (running s) v (start_time s) (times s)
  (voltages s) (currents s) (NPLC s) (btn_start s) (nplc_spin s) (delta_I s)
  (delta_count s) (delta_delay s).
Definition set_start_time v s := State (running s) (exiting s) v (times s)
  (voltages s) (currents s) (NPLC s) (btn_start s) (nplc_spin s) (delta_I s)
  (delta_count s) (delta_delay s).
Definition set_times v s := State (running s) (exiting s) (start_time s) v
  (voltages s) (currents s) (NPLC s) (btn_start s) (nplc_spin s) (delta_I s)
  (delta_count s) (delta_delay s).
Definition set_voltages v s := State (running s) (exiting s) (start_time s) (times s)
  v (currents s) (NPLC s) (btn_start s) (nplc_spin s) (delta_I s)
  (delta_count s) (delta_delay s).
Definition set_currents v s := State (running s) (exiting s) (start_time s) (times s)
  (voltages s) v (NPLC s) (btn_start s) (nplc_spin s) (delta_I s)
  (delta_count s) (delta_delay s).
Definition set_NPLC v s := State (running s) (exiting s) (start_time s) (times s)
  (voltages s) (currents s) v (btn_start s) (nplc_spin s) (delta_I s)
  (delta_count s) (delta_delay s).
Definition set_btn_start v s := State (running s) (exiting s) (start_time s) (times s)
  (voltages s) (currents s) (NPLC s) v (nplc_spin s) (delta_I s)
  (delta_count s) (delta_delay s).

Abbreviation world := (Eff.world state field signal).
Abbreviation M := (Eff.M state field signal).
Abbreviation event := (Eff.event field signal).

(** The state [__init__] leaves, with the widgets at their defaults. *)
Definition init : state :=
  State false false None [] [] [] 1%float true 1%float 100e-6%float 20 0.1%float.

Definition REFRESH_INTERVAL : float := 0.1.

(** [max(0.0, x)]: the first argument unless the second is greater. *)
Definition max0 (x : float) : float := if (0 <? x)%float then x else 0%float.

(** [I if (i % 2 == 0) else -I]. *)
Definition label (I : float) (i : nat) : float :=
  if Nat.even i then I else (- I)%float.

Section Handlers.
Context `{Py.Builtins}.

Definition relay (cmd : string) : string :=
  "SYST:COMM:SER:SEND " +:+ Py.dquote +:+ cmd +:+ Py.dquote.

(** [_relay_send]: a failure is reported and goes no further. *)
Definition _relay_send (cmd : string) : M unit :=
  try_except
    (inst_write (relay cmd);; sleep 0.02)
    (λ e, status ("Relay send failed: " +:+ e)).

Definition start_clicked : M unit :=
  busy ← gets running;
  if busy : bool then mret tt
  else with_lock (
    busy ← gets running;
    (if negb busy then
       assign Ftimes (set_times []);;
       assign Fvoltages (set_voltages []);;
       assign Fcurrents (set_currents []);;
       assign Fstart_time (set_start_time None)
     else mret tt);;
    assign Frunning (set_running true);;
    v ← gets nplc_spin;
    assign FNPLC (set_NPLC v);;
    modify (set_btn_start false);;
    status "Starting Delta sequence...").

Definition clear_clicked : M unit :=
  with_lock (
    assign Frunning (set_running false);;
    assign Ftimes (set_times []);;
    assign Fvoltages (set_voltages []);;
    assign Fcurrents (set_currents []);;
    assign Fstart_time (set_start_time None));;
  modify (set_btn_start true);;
  status "Data cleared.".

(** [save_clicked]; [fname] is the name the file dialog returns, empty when
    it is cancelled. *)
Definition save_clicked (fname : string) : M unit :=
  if negb (Py.truthy fname) then mret tt
  else
    try_except
      (ts ← gets times;
       vs ← gets voltages;
       cs ← gets currents;
       lines ← lift (Pandas.to_csv
                       [("Time (s)", ts); ("Voltage (V)", vs); ("Current (A)", cs)]);
       write_file fname lines;;
       status ("Saved to " +:+ fname);;
       dialog "Saved" "Data saved successfully.")
      (λ e, dialog "Save Error" ("Failed to save data: " +:+ e)).

(** The slot of [new_point], run by the GUI thread. *)
Definition handle_new_point (elapsed voltage current : float) : M unit :=
  assign Ftimes (λ s, set_times (times s ++ [elapsed]) s);;
  assign Fvoltages (λ s, set_voltages (voltages s ++ [voltage]) s);;
  assign Fcurrents (λ s, set_currents (currents s ++ [current]) s);;
  status ("V=" +:+ Py.fmt_spec ".4e" voltage +:+ " V  I="
          +:+ Py.fmt_spec ".4e" current +:+ " A").

(** The slot of [done]. *)
Definition run_done : M unit :=
  status "Delta Sequence Complete.";;
  with_lock (assign Frunning (set_running false);;
             modify (set_btn_start true)).

(** Steps 1 to 3 of [_run_delta_mode]: both instruments are reset and the
    link to the 2182A is verified. *)
Definition delta_link : M unit :=
  inst_write "*RST";;
  sleep 0.5;;
  _relay_send "*RST";;
  sleep 1.5;;
  try_except
    (reply ← inst_query "SOUR:DELT:NVPR?";
     nvpr ← lift (Py.to_int (Py.strip reply));
     if bool_decide (nvpr ≠ 1%Z) then raise "NVPR!=1" else mret tt)
    (λ _, raise "2182A not detected. Check RS-232 cable.").

(** Steps 4 and 5 and the arming. *)
Definition delta_configure (I delay nplc : float) (expected : Z) : M unit :=
  status "Instruments synced. Sending parameters...";;
  _relay_send "SENS:FUNC 'VOLT'";;
  _relay_send ("SENS:VOLT:NPLC " +:+ Py.fmt_float nplc);;
  _relay_send "TRIG:SOUR EXT";;
  _relay_send "TRIG:COUNT INF";;
  sleep 0.5;;
  inst_write ("SOUR:DELT:HIGH " +:+ Py.fmt_float I);;
  inst_write ("SOUR:DELT:LOW " +:+ Py.fmt_float (- I)%float);;
  inst_write ("SOUR:DELT:DEL " +:+ Py.fmt_float delay);;
  inst_write ("SOUR:DELT:COUN " +:+ Py.fmt_int expected);;
  inst_write "SOUR:DELT:CAB ON";;
  inst_write ("TRAC:POIN " +:+ Py.fmt_int expected);;
  inst_write "FORM:ELEM READ";;
  inst_write "SOUR:DELT:ARM";;
  sleep 2.

(** The body of the first [try] of [_run_delta_mode]. *)
Definition delta_setup (I delay nplc : float) (expected : Z) : M unit :=
  delta_link;;
  delta_configure I delay nplc expected.

(** The readings in a reply to [TRAC:DATA?]; whatever goes wrong, none. *)
Definition read_buffer : M (list float) :=
  try_except
    (reply ← inst_query "TRAC:DATA?";
     let raw := Py.strip reply in
     if Py.truthy raw then
       map_m (λ x, lift (Py.to_float x))
             (filter (λ x, Is_true (Py.truthy (Py.strip x))) (Py.split_on "," raw))
     else mret [])
    (λ _, mret []).

(** [for i in range(last_len, len(vals)): ...]. *)
Definition stream_points (I now base : float) (vals : list float)
    (last_len : nat) : M unit :=
  for_each (seq last_len (length vals - last_len)) (λ i,
    let elapsed := max0 (now - base)%float in
    let cur := label I i in
    v ← item vals i;
    emit (new_point elapsed v cur)).

(** One turn of the poll loop: [Some last_len] to go round again, [None]
    when the function returns. *)
Definition poll_once (I : float) (expected : Z) (last_len : nat)
    : M (option nat) :=
  vals ← read_buffer;
  last_len ← (if (last_len <? length vals)%nat then
                now ← time_time;
                base ← with_lock (gets start_time);
                let base := default now base in
                stream_points I now base vals last_len;;
                mret (length vals)
              else mret last_len);
  if (expected <=? Z.of_nat (length vals))%Z then
    status "Buffer full. Finishing...";;
    try_except (inst_write "*RST") (λ _, mret tt);;
    mret None
  else
    sleep REFRESH_INTERVAL;;
    mret (Some last_len).

Fixpoint poll_loop (fuel : nat) (I : float) (expected : Z) (last_len : nat)
    : M unit :=
  match fuel with
  | 0 => spin
  | S n =>
      next ← poll_once I expected last_len;
      match next with
      | None => mret tt
      | Some last_len => poll_loop n I expected last_len
      end
  end.

(** The body of the second [try] of [_run_delta_mode]. *)
Definition delta_run (fuel : nat) (I : float) (expected : Z) : M unit :=
  inst_write "INIT:IMM";;
  with_lock (now ← time_time;
             assign Fstart_time (set_start_time (Some now)));;
  poll_loop fuel I expected 0.

(** [_run_delta_mode] once the widgets are read; [fuel] bounds the turns of
    its poll loop. *)
Definition delta_sequence (I delay nplc : float) (expected : Z) (fuel : nat)
    : M unit :=
  status "Configuring Delta Mode on 6221/2182A...";;
  armed ← try_except
    (delta_setup I delay nplc expected;; mret true)
    (λ e, status ("Setup Error: " +:+ e);; mret false);
  if armed : bool then
    status "Running Delta...";;
    try_except
      (delta_run fuel I expected)
      (λ e, status ("Runtime Error: " +:+ e))
  else mret tt.

Definition _run_delta_mode (fuel : nat) : M unit :=
  I ← gets delta_I;
  count_pairs ← gets delta_count;
  delay ← gets delta_delay;
  nplc ← gets nplc_spin;
  let expected := count_pairs in
  delta_sequence I delay nplc expected fuel.

(** [worker_loop]: [fuel] bounds its turns and those of each poll loop. *)
Fixpoint worker_loop (fuel : nat) : M unit :=
  match fuel with
  | 0 => spin
  | S n =>
      stop ← gets exiting;
      if stop : bool then mret tt
      else
        sleep 0.05;;
        should_run ← with_lock (gets running);
        if should_run : bool then
          _run_delta_mode n;;
          emit done;;
          worker_loop n
        else worker_loop n
  end.

(** [closeEvent]; closing the session and the resource manager sends no
    command. *)
Definition closeEvent : M unit :=
  with_lock (assign Frunning (set_running false));;
  assign Fexiting (set_exiting true);;
  try_except
    (inst_write "OUTP OFF";;
     inst_write "*RST")
    (λ _, mret tt).

(** What happens to the application, one thing at a time. *)
Inductive action : Type :=
| Start
| Wipe
| SaveAs (fname : string)
| Point (elapsed voltage current : float)
| Finished
| Work (fuel : nat)
| Close.

Definition perform (a : action) : M unit :=
  match a with
  | Start => start_clicked
  | Wipe => clear_clicked
  | SaveAs fname => save_clicked fname
  | Point elapsed voltage current => handle_new_point elapsed voltage current
  | Finished => run_done
  | Work fuel => worker_loop fuel
  | Close => closeEvent
  end.

Fixpoint run (history : list action) (w : world) : world :=
  match history with
  | [] => w
  | a :: rest => run rest (snd (perform a w))
  end.

(** *** Reading a delta run *)


(** [[float(x) for x in fields]], or nothing when one of them is no float. *)
Fixpoint floats (fields : list string) : option (list float) :=
  match fields with
  | [] => Some []
  | x :: rest =>
      match Py.to_float x, floats rest with
      | inr v, Some vs => Some (v :: vs)
      | _, _ => None
      end
  end.

(** What [read_buffer] makes of the driver's reply. *)
Definition parse_buffer (r : reply) : list float :=
  match r with
  | Raises _ => []
  | Answers reply =>
      let raw := Py.strip reply in
      if Py.truthy raw then
        default [] (floats (filter (λ x, Is_true (Py.truthy (Py.strip x)))
                                   (Py.split_on "," raw)))
      else []
  end.

(** The points a turn of the poll loop streams for the readings [vs], the
    first of which stands at index [i] of the buffer. *)
Fixpoint points (I elapsed : float) (i : nat) (vs : list float) : list signal :=
  match vs with
  | [] => []
  | v :: rest => new_point elapsed v (label I i) :: points I elapsed (S i) rest
  end.

(** What a turn appends between its query and its completion check, when
    the buffer holds [vals] and [last_len] readings were streamed before. *)
Definition streamed (I : float) (w : world) (last_len : nat) (vals : list float)
    : list event :=
  if (last_len <? length vals)%nat then
    let now := now_of w in
    let base := default now (start_time (self w)) in
    [EvAcquire; EvRelease]
    ++ map EvEmit (points I (max0 (now - base)%float) last_len (drop last_len vals))
  else [].


(** The link to the 2182A is up: the third call of the driver from [w] on,
    the query [SOUR:DELT:NVPR?], is answered with the value 1. *)
Definition link_up (w : world) : Prop :=
  ∃ s, bus w (S (S (bus_calls w))) = Answers s
       ∧ Py.to_int (Py.strip s) = inr 1%Z.



(** The readings the [k]-th poll from [w] on finds in the buffer: every poll
    before the last consumes one reply of the bus. *)
Definition buffer_at (w : world) (k : nat) : list float :=
  parse_buffer (bus w (bus_calls w + k)).

(** The current a [new_point] carries. *)
Definition current_of (s : signal) : option float :=
  match s with
  | new_point _ _ current => Some current
  | done => None
  end.

(** The points emitted carry the currents [label I i], [label I (i + 1)],
    and so on, and nothing but points is emitted. *)
Definition alternating (I : float) (i : nat) (r : outcome unit)
    (evs : list event) : Prop :=
  omap current_of (emitted evs) = map (label I) (seq i (length (emitted evs))).

(** The attributes the single lock is there for, as the specification lists
    them, and those the code does write under it. *)
Definition shared (f : field) : bool :=
  match f with
  | Frunning | Fstart_time | Fexiting => true
  | _ => false
  end.

Definition locked (f : field) : bool :=
  match f with
  | Frunning | Fstart_time => true
  | _ => false
  end.

End Handlers.
End Nano.

(** ** Worlds to run the model in *)

Module Examples.
Import Demo.

(** A bus that gives [replies] in turn and then empty answers; a clock that
    reads [times] in turn. *)
Definition script (replies : list reply) : nat → reply :=
  λ n, nth n replies (Answers "").

Definition ticks (times : list float) : nat → float :=
  λ n, nth n times 0%float.

(** The picoammeter on the bench: the instrument accepts the eleven commands
    of the set-up and then reads 7 A and 9 A; the clock reads 1, 5, 8, 13 and
    21 s; [readings.csv] is on the disk. *)
Definition bench : Pico.world :=
  World Pico.init []
        (script (replicate 11 (Answers "") ++ [Answers "7A,0,0"; Answers "9A,0,0"]))
        0 (ticks [1; 5; 8; 13; 21]%float) 0
        {["readings.csv" := ["Time,current_A"; "0,1"]]}.

(** Play has been pressed once. *)
Definition started : Pico.world := Pico.run [Pico.Play] bench.


(** The delta rig, set for three readings: the link query is answered with
    1, every command is accepted, and the buffer is polled three times: two
    readings, then a timeout of the driver, then three readings. *)
Definition rig : Nano.world :=
  World (Nano.State false false None [] [] [] 1 true 1 100e-6 3 0.1) []
        (script (replicate 2 (Answers "") ++ [Answers "1"]
                 ++ replicate 13 (Answers "")
                 ++ [Answers "1,2"; Raises "VI_ERROR_TMO"; Answers "1,2,3"]))
        0 (ticks [10; 11; 12; 13]%float) 0 ∅.

(** The same rig when the poll loop begins. *)
Definition polling : Nano.world :=
  World (self rig) [] (bus rig) 16 (clock rig) 1 ∅.

(** The same rig where the driver times out. *)
Definition timed_out : Nano.world :=
  World (self rig) [] (bus rig) 17 (clock rig) 1 ∅.

(** A run is in progress and two points have been delivered. *)
Definition running_rig : Nano.world :=
  Nano.run [Nano.Start; Nano.Point 1 1 100e-6; Nano.Point 1 2 (-100e-6)] rig.

End Examples.

(** * Facts about the monad and its traces *)

Section TraceFacts.
Context {St Fld Sig : Type}.
Implicit Types (w : Eff.world St Fld Sig) (tr evs : list (Eff.event Fld Sig)).
Local Abbreviation M := (Eff.M St Fld Sig).

Lemma since_eq w w' tr : trace w' = trace w ++ tr → since w w' = tr.
Proof. unfold since. intros ->. apply drop_app_length. Qed.

Lemma since_refl w w' : trace w' = trace w → since w w' = [].
Proof. unfold since. intros ->. apply drop_all. Qed.


Lemma statuses_app tr1 tr2 : statuses (tr1 ++ tr2) = statuses tr1 ++ statuses tr2.
Proof.
  induction tr1 as [|e tr1 IH]; [reflexivity|].
  destruct e; simpl; rewrite ?IH; reflexivity.
Qed.

Lemma emitted_app tr1 tr2 : emitted (tr1 ++ tr2) = emitted tr1 ++ emitted tr2.
Proof.
  induction tr1 as [|e tr1 IH]; [reflexivity|].
  destruct e; simpl; rewrite ?IH; reflexivity.
Qed.

Lemma holds_app held tr1 tr2 :
  holds held (tr1 ++ tr2) = holds (holds held tr1) tr2.
Proof.
  revert held. induction tr1 as [|e tr1 IH]; intros held; [reflexivity|].
  destruct e; simpl; apply IH.
Qed.

Lemma guarded_app shared held tr1 tr2 :
  guarded shared held (tr1 ++ tr2)
  = guarded shared held tr1 && guarded shared (holds held tr1) tr2.
Proof.
  revert held. induction tr1 as [|e tr1 IH]; intros held; [reflexivity|].
  destruct e; simpl; rewrite ?IH; try reflexivity.
  now rewrite andb_assoc.
Qed.


Lemma yields_ret {A} (a : A) Q : Q (Val tt) [] → yields (ret a : M A) Q.
Proof. intros HQ w. exists []. simpl. rewrite app_nil_r. auto. Qed.

Lemma yields_raise {A} msg Q : Q (Exn msg) [] → yields (raise msg : M A) Q.
Proof. intros HQ w. exists []. simpl. rewrite app_nil_r. auto. Qed.

Lemma yields_spin {A} Q : Q Spin [] → yields (spin : M A) Q.
Proof. intros HQ w. exists []. simpl. rewrite app_nil_r. auto. Qed.

Lemma yields_log e Q : Q (Val tt) [e] → yields (log e : M unit) Q.
Proof. intros HQ w. exists [e]. simpl. auto. Qed.

Lemma yields_gets {A} (f : St → A) Q : Q (Val tt) [] → yields (gets f : M A) Q.
Proof. intros HQ w. exists []. simpl. rewrite app_nil_r. auto. Qed.

Lemma yields_modify upd Q : Q (Val tt) [] → yields (modify upd : M unit) Q.
Proof. intros HQ w. exists []. simpl. rewrite app_nil_r. auto. Qed.

Lemma yields_time Q : Q (Val tt) [] → yields (time_time : M float) Q.
Proof. intros HQ w. exists []. simpl. rewrite app_nil_r. auto. Qed.

Lemma yields_write_file name content Q :
  Q (Val tt) [] → yields (write_file name content : M unit) Q.
Proof. intros HQ w. exists []. simpl. rewrite app_nil_r. auto. Qed.

Lemma yields_path_exists name Q : Q (Val tt) [] → yields (path_exists name : M bool) Q.
Proof. intros HQ w. exists []. simpl. rewrite app_nil_r. auto. Qed.

Lemma yields_lift {A} (r : string + A) Q :
  Q (Val tt) [] → (∀ msg, Q (Exn msg) []) → yields (lift r : M A) Q.
Proof.
  intros HQ HE w. exists []. destruct r; simpl; rewrite app_nil_r; auto.
Qed.

Lemma yields_bind {A B} (m : M A) (k : A → M B) Q1 Q2 Q :
  yields m Q1 → (∀ a, yields (k a) Q2) →
  (∀ evs1 r evs2, Q1 (Val tt) evs1 → Q2 r evs2 → Q r (evs1 ++ evs2)) →
  (∀ msg evs, Q1 (Exn msg) evs → Q (Exn msg) evs) →
  (∀ evs, Q1 Spin evs → Q Spin evs) →
  yields (bind m k) Q.
Proof.
  intros Hm Hk Hseq Hexn Hspin w. unfold bind.
  destruct (Hm w) as (evs1 & Ht1 & HQ1).
  destruct (m w) as [[a|msg|] w1]; simpl in *.
  - destruct (Hk a w1) as (evs2 & Ht2 & HQ2).
    exists (evs1 ++ evs2). rewrite Ht2, Ht1, app_assoc. eauto.
  - eauto.
  - eauto.
Qed.

Lemma yields_try {A} (m : M A) (h : string → M A) Q1 Q2 Q :
  yields m Q1 → (∀ e, yields (h e) Q2) →
  (∀ evs, Q1 (Val tt) evs → Q (Val tt) evs) →
  (∀ evs, Q1 Spin evs → Q Spin evs) →
  (∀ msg evs1 r evs2, Q1 (Exn msg) evs1 → Q2 r evs2 → Q r (evs1 ++ evs2)) →
  yields (try_except m h) Q.
Proof.
  intros Hm Hh Hval Hspin Hexn w. unfold try_except.
  destruct (Hm w) as (evs1 & Ht1 & HQ1).
  destruct (m w) as [[a|msg|] w1]; simpl in *.
  - eauto.
  - destruct (Hh msg w1) as (evs2 & Ht2 & HQ2).
    exists (evs1 ++ evs2). rewrite Ht2, Ht1, app_assoc. eauto.
  - eauto.
Qed.

Lemma yields_with_lock {A} (m : M A) Q1 Q :
  yields m Q1 →
  (∀ r evs, r ≠ Spin → Q1 r evs → Q r (EvAcquire :: evs ++ [EvRelease])) →
  (∀ evs, Q1 Spin evs → Q Spin (EvAcquire :: evs)) →
  yields (with_lock m) Q.
Proof.
  intros Hm Hdone Hspin w. unfold with_lock, bind. simpl.
  set (w0 := World _ _ _ _ _ _ _).
  destruct (Hm w0) as (evs & Ht & HQ).
  destruct (m w0) as [[a|msg|] w1]; simpl in *.
  - exists (EvAcquire :: evs ++ [EvRelease]).
    rewrite Ht. subst w0. simpl. rewrite <- !app_assoc. simpl.
    split; [reflexivity|]. apply Hdone; [discriminate|assumption].
  - exists (EvAcquire :: evs ++ [EvRelease]).
    rewrite Ht. subst w0. simpl. rewrite <- !app_assoc. simpl.
    split; [reflexivity|]. apply Hdone; [discriminate|assumption].
  - exists (EvAcquire :: evs). rewrite Ht. subst w0. simpl.
    rewrite <- !app_assoc. simpl. auto.
Qed.

Section StableRules.
Context (Q : outcome unit → list (Eff.event Fld Sig) → Prop) `{!Stable Q}.

Lemma stable_bind {A B} (m : M A) (k : A → M B) :
  yields m Q → (∀ a, yields (k a) Q) → yields (bind m k) Q.
Proof.
  intros Hm Hk. eapply yields_bind; eauto. intros. now apply stable_app.
Qed.

Lemma stable_for_each {A} (xs : list A) (body : A → M unit) :
  (∀ x, yields (body x) Q) → yields (for_each xs body) Q.
Proof.
  intros Hbody. induction xs as [|x xs IH]; simpl.
  - apply yields_ret, stable_nil.
  - apply stable_bind; auto.
Qed.

Lemma stable_map_m {A B} (f : A → M B) (xs : list A) :
  (∀ x, yields (f x) Q) → yields (map_m f xs) Q.
Proof.
  intros Hf. induction xs as [|x xs IH]; simpl.
  - apply yields_ret, stable_nil.
  - apply stable_bind; [auto|]. intros y. apply stable_bind; [auto|].
    intros ys. apply yields_ret, stable_nil.
Qed.
End StableRules.


Lemma yields_assign f upd Q : Q (Val tt) [EvSet f] → yields (assign f upd : M unit) Q.
Proof. intros HQ w. exists [EvSet f]. simpl. auto. Qed.

Lemma yields_inst_write cmd Q :
  Q (Val tt) [EvWrite cmd] → (∀ msg, Q (Exn msg) [EvWrite cmd]) →
  yields (inst_write cmd : M unit) Q.
Proof.
  intros HQ HE w. exists [EvWrite cmd]. unfold inst_write, bind, next_reply.
  simpl. destruct (bus w (bus_calls w)); simpl; auto.
Qed.

Lemma yields_inst_query cmd Q :
  Q (Val tt) [EvQuery cmd] → (∀ msg, Q (Exn msg) [EvQuery cmd]) →
  yields (inst_query cmd : M string) Q.
Proof.
  intros HQ HE w. exists [EvQuery cmd]. unfold inst_query, bind, next_reply.
  simpl. destruct (bus w (bus_calls w)); simpl; auto.
Qed.

#[export] Instance in_lock_stable (shared : Fld → bool) :
  Stable (in_lock (Sig:=Sig) shared).
Proof.
  split; [repeat split; discriminate|].
  intros evs1 r evs2 (_ & Hg1 & Hh1) (Hr & Hg2 & Hh2).
  unfold in_lock. rewrite guarded_app, holds_app, Hg1, Hh1, Hg2, Hh2. auto.
Qed.

#[export] Instance disciplined_stable (shared : Fld → bool) :
  Stable (disciplined (Sig:=Sig) shared).
Proof.
  split; [split; reflexivity|].
  intros evs1 r evs2 (Hg1 & Hh1) (Hg2 & Hh2).
  unfold disciplined. rewrite guarded_app, holds_app, Hg1, Hh1, Hg2, Hh2. auto.
Qed.

Lemma lock_disciplined {A} (m : M A) (shared : Fld → bool) :
  yields m (in_lock shared) → yields (with_lock m) (disciplined shared).
Proof.
  intros Hm. eapply yields_with_lock; [exact Hm| |].
  - intros r evs _ (_ & Hg & Hh). unfold disciplined. simpl.
    rewrite guarded_app, holds_app, Hg, Hh. auto.
  - intros evs (Hr & _). congruence.
Qed.

End TraceFacts.

Ltac yield_leaf :=
  first [ apply yields_ret | apply yields_raise | apply yields_spin
        | apply yields_log | apply yields_assign | apply yields_gets
        | apply yields_modify | apply yields_time | apply yields_write_file
        | apply yields_path_exists | apply yields_inst_write
        | apply yields_inst_query | apply yields_lift ];
  intros; repeat split; try reflexivity; try discriminate.

Ltac yield_step :=
  lazymatch goal with
  | |- yields (bind _ _) _ => apply stable_bind; [typeclasses eauto| |intros]
  | |- yields (mbind _ _) _ => apply stable_bind; [typeclasses eauto| |intros]
  | |- yields (for_each _ _) _ => apply stable_for_each; [typeclasses eauto|intros]
  | |- yields (map_m _ _) _ => apply stable_map_m; [typeclasses eauto|intros]
  | |- yields (with_lock _) (disciplined _) => apply lock_disciplined
  | |- yields (try_except _ _) ?Q =>
      apply yields_try with (Q1 := Q) (Q2 := Q);
      [ | intros | auto | auto | intros; now apply stable_app ]
  | |- yields (if ?c then _ else _) _ => destruct c
  | |- yields (match ?x with _ => _ end) _ => destruct x
  | |- yields (let '(_, _) := ?x in _) _ => destruct x
  | |- _ => yield_leaf
  end.


(** Taking a handler apart on a symbolic world: the record is opened, the
    monad is run as far as it goes, and the trace is put in the shape
    [trace w ++ events]. *)
Ltac unfold_m :=
  cbv beta iota zeta delta
    [mbind mret M_bind M_ret with_lock assign status emit sleep dialog
     inst_write inst_query try_except bind ret raise spin log modify gets
     next_reply time_time lift write_file path_exists now_of
     self trace bus bus_calls clock clock_calls files fst snd id
     negb andb orb default].

Ltac norm_trace :=
  rewrite <- ?app_assoc; simpl app;
  try (erewrite since_eq by (simpl; reflexivity));
  try (erewrite since_refl by (simpl; reflexivity)).

Ltac exec := unfold_m; norm_trace.

Ltac on_reply :=
  match goal with
  | |- context [match ?b ?n with Answers _ => _ | Raises _ => _ end] =>
      destruct (b n) eqn:?
  end.

Ltac case_on f :=
  match goal with
  | |- context [f ?x] => destruct (f x) eqn:?
  | |- context [f ?x ?y] => destruct (f x y) eqn:?
  end.

Ltac finish := exec; try (simpl; tauto); try reflexivity.

(** * Facts about exceptions and about what a handler leaves alone *)

Section SafeFacts.
Context {St Fld Sig : Type}.
Local Abbreviation M := (Eff.M St Fld Sig).

Lemma safe_ret {A} (a : A) : safe (ret a : M A).
Proof. intros w msg. discriminate. Qed.

Lemma safe_spin {A} : safe (spin : M A).
Proof. intros w msg. discriminate. Qed.

Lemma safe_log (e : Eff.event Fld Sig) : safe (log e : M unit).
Proof. intros w msg. discriminate. Qed.

Lemma safe_gets {A} (f : St → A) : safe (gets f : M A).
Proof. intros w msg. discriminate. Qed.

Lemma safe_modify upd : safe (modify upd : M unit).
Proof. intros w msg. discriminate. Qed.

Lemma safe_assign f upd : safe (assign f upd : M unit).
Proof. intros w msg. discriminate. Qed.

Lemma safe_time : safe (time_time : M float).
Proof. intros w msg. discriminate. Qed.

Lemma safe_bind {A B} (m : M A) (k : A → M B) :
  safe m → (∀ a, safe (k a)) → safe (bind m k).
Proof.
  intros Hm Hk w msg. unfold bind. specialize (Hm w).
  destruct (m w) as [[a|msg1|] w1]; simpl in *.
  - apply Hk.
  - intros [= <-]. now apply (Hm msg1).
  - discriminate.
Qed.

(** Whatever the body raises, a handler that raises nothing lets nothing
    through. *)
Lemma safe_try {A} (m : M A) (h : string → M A) :
  (∀ e, safe (h e)) → safe (try_except m h).
Proof.
  intros Hh w msg. unfold try_except.
  destruct (m w) as [[a|msg1|] w1]; simpl; try discriminate. apply Hh.
Qed.

Lemma safe_with_lock {A} (m : M A) : safe m → safe (with_lock m).
Proof.
  intros Hm w msg. unfold with_lock, bind. simpl.
  match goal with |- context [m ?w0] =>
    specialize (Hm w0); destruct (m w0) as [[a|msg1|] w1] end; simpl in *.
  - discriminate.
  - intros [= <-]. now apply (Hm msg1).
  - discriminate.
Qed.



















End SafeFacts.

Ltac safe_step :=
  lazymatch goal with
  | |- safe (bind _ _) => apply safe_bind; [|intros]
  | |- safe (mbind _ _) => apply safe_bind; [|intros]
  | |- safe (try_except _ _) => apply safe_try; intros
  | |- safe (with_lock _) => apply safe_with_lock
  | |- safe (if ?c then _ else _) => destruct c
  | |- safe (match ?x with _ => _ end) => destruct x
  | |- _ =>
      first [ apply safe_ret | apply safe_spin | apply safe_log
            | apply safe_gets | apply safe_modify | apply safe_assign
            | apply safe_time ]
  end.


(** * Strings, paths and frames *)

Section Strings.






End Strings.

Section Frames.
Context `{Py.Builtins}.






End Frames.

(** * The picoammeter *)

Section PicoFacts.
Context `{Py.Builtins}.
Import Pico.

Ltac open_pico :=
  cbv delta [update_iteration snapshot acquisition_failed
    parse_reading minus_resume play_reading pause_reading
    clear_data setup_instrument handle_new_data save_data perform
    readings timestamps running paused total_run_time last_resume_time
    btn_play btn_pause filename_input
    set_readings set_timestamps set_running set_paused set_total_run_time
    set_last_resume_time set_btn_play set_btn_pause set_filename_input] in *.

Ltac pico w :=
  destruct w as [[rs ts run pau total last bplay bpause fname] tr b n c k fs];
  open_pico; exec.

(** ** What each handler does *)


Lemma turn_idle (w : world) :
  running (self w) && negb (paused (self w)) = false →
  update_iteration w =
    (Val tt, World (self w) (trace w ++ [EvAcquire; EvRelease; EvSleep 0.3])
                   (bus w) (bus_calls w) (clock w) (clock_calls w) (files w)).
Proof. pico w. destruct run, pau; finish; discriminate. Qed.

Lemma turn_returns (w : world) : fst (update_iteration w) = Val tt.
Proof.
  pico w. destruct run, pau; finish.
  cbv delta [acquire parse_reading minus_resume]. exec.
  on_reply; finish.
  case_on @Py.to_float; finish.
  destruct last as [resume|]; finish.
Qed.



(** An exception in the body of the [try] ends in [acquisition_failed]. *)
Lemma turn_failed (w w1 : world) msg :
  running (self w) = true → paused (self w) = false →
  acquire (total_run_time (self w)) (last_resume_time (self w)) (snd (snapshot w))
    = (Exn msg, w1) →
  update_iteration w = acquisition_failed msg w1.
Proof.
  destruct w as [[rs ts run pau total last bplay bpause fname] tr b n c k fs].
  simpl. intros -> ->.
  cbv delta [update_iteration snapshot]. unfold_m. simpl.
  intros ->. reflexivity.
Qed.

Lemma failure_reported (w : world) msg :
  let w' := snd (acquisition_failed msg w) in
  fst (acquisition_failed msg w) = Val tt
  ∧ statuses (since w w') = ["Error: " +:+ msg]
  ∧ running (self w') = false ∧ paused (self w') = false.
Proof. pico w. simpl. auto. Qed.








(** ** The sum behind [total_run_time] *)




(** ** The two lists grow and shrink together *)




(** ** Saving *)




(** ** The lock *)

Lemma play_disciplined : yields play_reading (disciplined shared).
Proof.
  unfold play_reading, setup_instrument, status, sleep. repeat yield_step.
Qed.

Lemma pause_disciplined : yields pause_reading (disciplined shared).
Proof.
  unfold pause_reading, minus_resume, status. repeat yield_step.
Qed.

Lemma turn_disciplined : yields update_iteration (disciplined shared).
Proof.
  unfold update_iteration, snapshot, acquire, acquisition_failed,
    parse_reading, minus_resume, status, emit, sleep.
  repeat yield_step.
Qed.

Lemma loop_disciplined fuel : yields (update_loop fuel) (disciplined shared).
Proof.
  induction fuel as [|fuel IH]; simpl.
  - yield_step.
  - yield_step; [apply turn_disciplined|apply IH].
Qed.

(** ** Exceptions *)

Lemma turn_safe : safe update_iteration.
Proof. intros w msg. rewrite turn_returns. discriminate. Qed.

Lemma loop_safe fuel : safe (update_loop fuel).
Proof.
  induction fuel as [|fuel IH]; simpl; [apply safe_spin|].
  apply safe_bind; [apply turn_safe|intros _; apply IH].
Qed.

(** ** The claims about the picoammeter alone *)


(** C7.  A turn of the polling loop that finds the application paused or not
    running only sleeps: it hands nothing to the driver, emits nothing and
    leaves the application as it is.  A turn that sends [READ?] or emits a
    point found it running and not paused. *)
Theorem idle_turn_only_sleeps (w : world) :
  (running (self w) && negb (paused (self w)) = false →
   update_iteration w =
     (Val tt, World (self w) (trace w ++ [EvAcquire; EvRelease; EvSleep 0.3])
                    (bus w) (bus_calls w) (clock w) (clock_calls w) (files w)))
  ∧ (let evs := since w (snd (update_iteration w)) in
     In "READ?" (sent evs) ∨ emitted evs ≠ [] →
     running (self w) = true ∧ paused (self w) = false).
Proof.
  split; [apply turn_idle|].
  intros evs Hact. subst evs.
  destruct (running (self w) && negb (paused (self w))) eqn:Hon.
  - apply andb_true_iff in Hon as [-> Hp]. apply negb_true_iff in Hp. auto.
  - exfalso. rewrite (turn_idle w Hon) in Hact.
    erewrite since_eq in Hact by (simpl; reflexivity). simpl in Hact.
    destruct Hact as [[]|Hne]. now apply Hne.
Qed.


End PicoFacts.

(** * The delta-mode controller *)

Section NanoFacts.
Context `{Py.Builtins}.
Import Nano.

Ltac open_nano :=
  cbv delta [start_clicked clear_clicked save_clicked handle_new_point run_done
    closeEvent _relay_send perform
    running exiting start_time times voltages currents NPLC btn_start
    nplc_spin delta_I delta_count delta_delay
    set_running set_exiting set_start_time set_times set_voltages
    set_currents set_NPLC set_btn_start] in *.

Ltac nano w :=
  destruct w as [[run ex start ts vs cs nplc bstart spin I count delay]
                 tr b n c k fs];
  open_nano; exec.

(** Running the monad without opening [lift]. *)
Ltac step_m :=
  cbv beta iota zeta delta
    [mbind mret M_bind M_ret try_except bind inst_query inst_write log
     next_reply ret raise self trace bus bus_calls clock clock_calls files
     fst snd].

(** ** Start *)

Lemma start_busy (w : world) :
  running (self w) = true → start_clicked w = (Val tt, w).
Proof. nano w. intros ->. reflexivity. Qed.

Lemma start_runs (w : world) :
  fst (start_clicked w) = Val tt ∧ running (self (snd (start_clicked w))) = true.
Proof. nano w. destruct run; finish. Qed.

(** ** One turn of the poll loop *)

Lemma map_m_floats (xs : list string) (w : world) :
  ∃ r, map_m (λ x, lift (Py.to_float x)) xs w = (r, w)
       ∧ match floats xs with
         | Some vs => r = Val vs
         | None => ∃ msg, r = Exn msg
         end.
Proof.
  induction xs as [|x xs IH]; simpl.
  - eexists. split; reflexivity.
  - unfold bind at 1. destruct (Py.to_float x) as [msg|v]; cbn [lift raise ret].
    + eexists. split; [reflexivity|eauto].
    + unfold bind at 1. destruct IH as (r & -> & Hr).
      destruct (floats xs) as [vs|].
      * subst r. eexists. split; reflexivity.
      * destruct Hr as [msg ->]. eexists. split; [reflexivity|eauto].
Qed.

Lemma read_buffer_eq (w : world) :
  read_buffer w =
    (Val (parse_buffer (bus w (bus_calls w))),
     World (self w) (trace w ++ [EvQuery "TRAC:DATA?"]) (bus w)
           (S (bus_calls w)) (clock w) (clock_calls w) (files w)).
Proof.
  destruct w as [s tr b n c k fs]. cbv delta [read_buffer parse_buffer].
  step_m. destruct (b n) as [reply|msg]; step_m; [|reflexivity].
  destruct (Py.truthy (Py.strip reply)); [|reflexivity].
  match goal with |- context [map_m _ ?xs ?w] =>
    destruct (map_m_floats xs w) as (r & -> & Hr) end.
  destruct (floats _) as [vs|].
  - subst r. reflexivity.
  - destruct Hr as [msg ->]. reflexivity.
Qed.

Lemma for_each_points I elapsed (vals : list float) :
  ∀ count last_len (w : world),
  last_len + count = length vals →
  for_each (seq last_len count) (λ i,
      let cur := label I i in
      v ← item vals i;
      emit (new_point elapsed v cur)) w =
    (Val tt,
     World (self w)
           (trace w ++ map EvEmit (points I elapsed last_len (drop last_len vals)))
           (bus w) (bus_calls w) (clock w) (clock_calls w) (files w)).
Proof.
  induction count as [|count IH]; intros last_len w Hlen; simpl.
  - rewrite drop_ge by lia. simpl. rewrite app_nil_r. destruct w; reflexivity.
  - destruct (lookup_lt_is_Some_2 vals last_len) as [v Hv]; [lia|].
    rewrite (drop_S _ _ _ Hv). simpl.
    unfold bind at 1. unfold mbind, M_bind, bind at 1, item. rewrite Hv.
    unfold ret at 1. unfold emit, log at 1.
    rewrite IH by (simpl; lia). simpl. rewrite <- app_assoc. reflexivity.
Qed.

Lemma stream_points_eq I now base (vals : list float) last_len (w : world) :
  (last_len ≤ length vals)%nat →
  stream_points I now base vals last_len w =
    (Val tt,
     World (self w)
           (trace w ++ map EvEmit (points I (max0 (now - base)%float) last_len
                                          (drop last_len vals)))
           (bus w) (bus_calls w) (clock w) (clock_calls w) (files w)).
Proof.
  intros Hle. unfold stream_points.
  apply (for_each_points I (max0 (now - base)%float)). lia.
Qed.

Lemma poll_once_eq I expected last_len (w : world) :
  let vals := parse_buffer (bus w (bus_calls w)) in
  let more := (last_len <? length vals)%nat in
  let ticks := if more then S (clock_calls w) else clock_calls w in
  poll_once I expected last_len w =
    if (expected <=? Z.of_nat (length vals))%Z then
      (Val None,
       World (self w)
             (trace w ++ EvQuery "TRAC:DATA?" :: streamed I w last_len vals
                      ++ [EvStatus "Buffer full. Finishing..."; EvWrite "*RST"])
             (bus w) (S (S (bus_calls w))) (clock w) ticks (files w))
    else
      (Val (Some (if more then length vals else last_len)),
       World (self w)
             (trace w ++ EvQuery "TRAC:DATA?" :: streamed I w last_len vals
                      ++ [EvSleep REFRESH_INTERVAL])
             (bus w) (S (bus_calls w)) (clock w) ticks (files w)).
Proof.
  intros vals more ticks. unfold poll_once.
  unfold mbind at 1. unfold M_bind, bind at 1. rewrite read_buffer_eq.
  fold vals. subst more ticks. unfold streamed.
  destruct w as [s tr b n c k fs]. simpl in *.
  destruct (last_len <? length vals)%nat eqn:Hmore.
  - apply Nat.ltb_lt in Hmore.
    unfold_m. rewrite stream_points_eq by lia.
    exec.
    destruct (expected <=? Z.of_nat (length vals))%Z; exec.
    + destruct (b (S n)); exec; rewrite <- ?app_assoc; reflexivity.
    + rewrite <- ?app_assoc; reflexivity.
  - exec. destruct (expected <=? Z.of_nat (length vals))%Z; exec.
    + destruct (b (S n)); exec; reflexivity.
    + reflexivity.
Qed.


(** ** The poll loop *)

Lemma buffer_at_next (w w1 : world) k :
  bus w1 = bus w → bus_calls w1 = S (bus_calls w) →
  buffer_at w1 k = buffer_at w (S k).
Proof.
  intros Hb Hn. unfold buffer_at. rewrite Hb, Hn. f_equal. f_equal. lia.
Qed.

Lemma buffer_at_0 (w : world) : buffer_at w 0 = parse_buffer (bus w (bus_calls w)).
Proof. unfold buffer_at. now rewrite Nat.add_0_r. Qed.

Lemma poll_loop_never_raises I expected fuel : ∀ last_len (w : world) msg,
  fst (poll_loop fuel I expected last_len w) ≠ Exn msg.
Proof.
  induction fuel as [|fuel IH]; intros last_len w msg; simpl; [discriminate|].
  unfold mbind, M_bind. unfold bind at 1. rewrite poll_once_eq.
  destruct (_ <=? _)%Z; [discriminate|apply IH].
Qed.

Lemma poll_loop_returns_iff I expected fuel : ∀ last_len (w : world),
  fst (poll_loop fuel I expected last_len w) = Val tt
  ↔ ∃ k, (k < fuel)%nat ∧ (expected ≤ Z.of_nat (length (buffer_at w k)))%Z.
Proof.
  induction fuel as [|fuel IH]; intros last_len w; simpl.
  - split; [discriminate|]. intros (k & Hk & _). lia.
  - unfold mbind, M_bind. unfold bind at 1. rewrite poll_once_eq.
    rewrite <- buffer_at_0.
    destruct (expected <=? Z.of_nat (length (buffer_at w 0)))%Z eqn:Hfull.
    + apply Z.leb_le in Hfull. split; [|reflexivity].
      intros _. exists 0%nat. split; [lia|exact Hfull].
    + apply Z.leb_gt in Hfull. rewrite IH. split.
      * intros (k & Hk & Hle). exists (S k). split; [lia|].
        erewrite <- buffer_at_next; [exact Hle|reflexivity|reflexivity].
      * intros ([|k] & Hk & Hle); [lia|]. exists k. split; [lia|].
        erewrite buffer_at_next; [exact Hle|reflexivity|reflexivity].
Qed.

(** The turn the loop returns from is the first that finds the buffer
    full. *)
Lemma poll_loop_last_turn I expected k : ∀ fuel last_len (w : world),
  (k < fuel)%nat →
  (expected ≤ Z.of_nat (length (buffer_at w k)))%Z →
  (∀ j, (j < k)%nat → (Z.of_nat (length (buffer_at w j)) < expected)%Z) →
  ∃ last_k (wk : world),
    bus wk = bus w ∧ bus_calls wk = (bus_calls w + k)%nat ∧ self wk = self w
    ∧ (∃ evs, trace wk = trace w ++ evs)
    ∧ poll_once I expected last_k wk
      = (Val None, snd (poll_loop fuel I expected last_len w)).
Proof.
  induction k as [|k IH]; intros [|fuel] last_len w Hk Hfull Hbefore; try lia.
  - exists last_len, w. rewrite Nat.add_0_r. repeat split; try reflexivity.
    { exists []. now rewrite app_nil_r. }
    simpl. unfold mbind, M_bind. unfold bind at 1.
    rewrite buffer_at_0 in Hfull. apply Z.leb_le in Hfull.
    rewrite poll_once_eq, Hfull. reflexivity.
  - simpl. unfold mbind, M_bind. unfold bind at 1. rewrite poll_once_eq.
    rewrite <- buffer_at_0.
    pose proof (Hbefore 0%nat ltac:(lia)) as H0. apply Z.leb_gt in H0. rewrite H0.
    match goal with |- context [poll_loop fuel I expected ?l ?w1] =>
      destruct (IH fuel l w1) as (last_k & wk & Hb & Hn & Hs & [evs He] & Heq)
    end.
    + lia.
    + erewrite buffer_at_next; [exact Hfull|reflexivity|reflexivity].
    + intros j Hj. erewrite buffer_at_next; [apply Hbefore; lia|reflexivity|reflexivity].
    + exists last_k, wk. simpl in *. repeat split; try assumption.
      * rewrite Hn. lia.
      * rewrite He, <- app_assoc. eauto.
Qed.

Lemma emitted_map_emit (ss : list signal) :
  emitted (map EvEmit ss : list event) = ss.
Proof. induction ss as [|s ss IH]; simpl; [reflexivity|now rewrite IH]. Qed.

Lemma currents_points I elapsed (vs : list float) : ∀ i,
  omap current_of (points I elapsed i vs) = map (label I) (seq i (length vs))
  ∧ length (points I elapsed i vs) = length vs.
Proof.
  induction vs as [|v vs IH]; intros i; [split; reflexivity|].
  destruct (IH (S i)) as [IH1 IH2].
  split; simpl; f_equal; assumption.
Qed.

Lemma emitted_streamed I (w : world) last_len vals :
  emitted (streamed I w last_len vals)
  = if (last_len <? length vals)%nat then
      points I (max0 (now_of w - default (now_of w) (start_time (self w)))%float)
             last_len (drop last_len vals)
    else [].
Proof.
  unfold streamed. destruct (_ <? _)%nat; [|reflexivity].
  simpl. apply emitted_map_emit.
Qed.

Lemma turn_emits I expected last_len (w : world) :
  emitted (since w (snd (poll_once I expected last_len w)))
  = emitted (streamed I w last_len (parse_buffer (bus w (bus_calls w)))).
Proof.
  rewrite poll_once_eq. destruct (_ <=? _)%Z; simpl;
    (erewrite since_eq by (simpl; reflexivity)); simpl;
    rewrite emitted_app, app_nil_r; reflexivity.
Qed.

Lemma poll_loop_alternates I expected fuel : ∀ last_len,
  yields (poll_loop fuel I expected last_len) (alternating I last_len).
Proof.
  induction fuel as [|fuel IH]; intros last_len w; simpl.
  - exists []. rewrite app_nil_r. split; reflexivity.
  - unfold mbind, M_bind. unfold bind at 1. rewrite poll_once_eq.
    set (vals := parse_buffer _).
    assert (Hturn : omap current_of (emitted (streamed I w last_len vals))
                    = map (label I) (seq last_len
                          (length (emitted (streamed I w last_len vals))))
                    ∧ (if (last_len <? length vals)%nat then length vals
                       else last_len)
                      = (last_len
                         + length (emitted (streamed I w last_len vals)))%nat).
    { rewrite emitted_streamed. destruct (last_len <? length vals)%nat eqn:Hmore.
      - apply Nat.ltb_lt in Hmore.
        destruct (currents_points I
          (max0 (now_of w - default (now_of w) (start_time (self w)))%float)
          (drop last_len vals) last_len) as [-> ->].
        rewrite length_drop. split; [reflexivity|lia].
      - simpl. split; [reflexivity|lia]. }
    destruct Hturn as [Hcur Hnext].
    destruct (expected <=? Z.of_nat (length vals))%Z.
    + eexists. split; [simpl; reflexivity|]. unfold alternating. simpl.
      rewrite emitted_app. simpl. rewrite app_nil_r. exact Hcur.
    + destruct (IH (if (last_len <? length vals)%nat then length vals
                    else last_len)
                   (World (self w)
                      (trace w ++ EvQuery "TRAC:DATA?" :: streamed I w last_len vals
                               ++ [EvSleep REFRESH_INTERVAL])
                      (bus w) (S (bus_calls w)) (clock w)
                      (if (last_len <? length vals)%nat then S (clock_calls w)
                       else clock_calls w) (files w)))
        as (evs & Ht & Halt).
      eexists. split.
      * rewrite Ht. simpl. rewrite <- app_assoc. simpl.
        rewrite <- app_assoc. reflexivity.
      * unfold alternating in *. simpl. rewrite !emitted_app. simpl.
        rewrite omap_app, Hcur, Halt, Hnext, length_app, seq_app, map_app.
        reflexivity.
Qed.


(** ** The set-up *)












Lemma link_answered (w : world) a :
  bus w (bus_calls w) = Answers a →
  ∃ evs, trace (snd (delta_link w)) = trace w ++ evs
    ∧ sent evs = ["*RST"; relay "*RST"; "SOUR:DELT:NVPR?"]
    ∧ ((fst (delta_link w) = Val tt ∧ link_up w)
       ∨ (fst (delta_link w) = Exn "2182A not detected. Check RS-232 cable."
          ∧ ¬ link_up w)).
Proof.
  unfold link_up.
  destruct w as [s tr b n c k fs]. cbv delta [delta_link _relay_send]. simpl.
  intros Hb. exec. rewrite Hb. exec.
  assert (Hno : ∀ msg, b (S (S n)) = Raises msg →
            ¬ ∃ s0, b (S (S n)) = Answers s0 ∧ Py.to_int (Py.strip s0) = inr 1%Z).
  { intros msg Hq (s0 & Hs0 & _). congruence. }
  destruct (b (S n)) as [r1|m1]; exec;
    destruct (b (S (S n))) as [reply|m2] eqn:Hq; exec;
    try (eexists; split; [reflexivity|]; split; [reflexivity|]; right;
         split; [reflexivity|]; eapply Hno; reflexivity);
    destruct (Py.to_int (Py.strip reply)) as [bad|nvpr] eqn:Hint; exec;
    try (eexists; split; [reflexivity|]; split; [reflexivity|]; right;
         split; [reflexivity|]; intros (s0 & [= <-] & Hs0); congruence);
    destruct (bool_decide (nvpr ≠ 1%Z)) eqn:Hne; exec;
    eexists; (split; [reflexivity|]); (split; [reflexivity|]).
  all: try (right; split; [reflexivity|]; intros (s0 & [= <-] & Hs0);
            apply bool_decide_eq_true_1 in Hne; congruence).
  all: left; split; [reflexivity|]; exists reply; split; [reflexivity|];
       apply bool_decide_eq_false_1 in Hne;
       destruct (decide (nvpr = 1%Z)) as [->|]; [assumption|contradiction].
Qed.

Lemma sequence_unfold I delay nplc expected fuel (w : world) :
  delta_sequence I delay nplc expected fuel w =
    match delta_link (snd (status "Configuring Delta Mode on 6221/2182A..." w)) with
    | (Val _, w1) =>
        match delta_configure I delay nplc expected w1 with
        | (Val _, w2) =>
            try_except (delta_run fuel I expected)
                       (λ e, status ("Runtime Error: " +:+ e))
                       (snd (status "Running Delta..." w2))
        | (Exn msg, w2) => (Val tt, snd (status ("Setup Error: " +:+ msg) w2))
        | (Spin, w2) => (Spin, w2)
        end
    | (Exn msg, w1) => (Val tt, snd (status ("Setup Error: " +:+ msg) w1))
    | (Spin, w1) => (Spin, w1)
    end.
Proof.
  unfold delta_sequence, delta_setup, mbind, mret, M_bind, M_ret.
  unfold bind at 1. unfold status at 1, log at 1. simpl.
  unfold bind at 1. unfold try_except at 1. unfold bind at 1. unfold bind at 1.
  destruct (delta_link _) as [[[]|msg|] w1]; simpl; try reflexivity.
  destruct (delta_configure _ _ _ _ _) as [[[]|msg|] w2]; simpl; try reflexivity.
Qed.



Lemma run_is_sequence fuel (w : world) :
  _run_delta_mode fuel w =
    delta_sequence (delta_I (self w)) (delta_delay (self w)) (nplc_spin (self w))
                   (delta_count (self w)) fuel w.
Proof. reflexivity. Qed.



(** ** Exceptions *)

Lemma sequence_safe I delay nplc expected fuel :
  safe (delta_sequence I delay nplc expected fuel).
Proof. unfold delta_sequence, status. repeat safe_step. Qed.

Lemma run_delta_safe fuel : safe (_run_delta_mode fuel).
Proof.
  unfold _run_delta_mode. repeat (apply safe_bind; [apply safe_gets|intros]).
  apply sequence_safe.
Qed.

Lemma worker_safe fuel : safe (worker_loop fuel).
Proof.
  induction fuel as [|fuel IH]; simpl; [apply safe_spin|].
  unfold sleep, emit.
  repeat lazymatch goal with
    | |- safe (_run_delta_mode _) => apply run_delta_safe
    | |- safe (worker_loop _) => apply IH
    | |- _ => safe_step
    end.
Qed.

Lemma relay_failure (w : world) cmd msg :
  bus w (bus_calls w) = Raises msg →
  _relay_send cmd w =
    (Val tt,
     World (self w)
           (trace w ++ [EvWrite (relay cmd);
                        EvStatus ("Relay send failed: " +:+ msg)])
           (bus w) (S (bus_calls w)) (clock w) (clock_calls w) (files w)).
Proof. nano w. intros ->. finish. Qed.

Lemma setup_failure I delay nplc expected fuel (w w1 : world) msg :
  delta_setup I delay nplc expected
    (snd (status "Configuring Delta Mode on 6221/2182A..." w)) = (Exn msg, w1) →
  delta_sequence I delay nplc expected fuel w
  = (Val tt, snd (status ("Setup Error: " +:+ msg) w1)).
Proof.
  intros Hsetup. rewrite sequence_unfold.
  unfold delta_setup, mbind, M_bind, bind in Hsetup.
  destruct (delta_link _) as [[[]|m1|] w2]; simpl in *.
  - destruct (delta_configure _ _ _ _ _) as [[[]|m2|] w3]; simpl in *;
      try discriminate. now injection Hsetup as -> ->.
  - now injection Hsetup as -> ->.
  - discriminate.
Qed.

Lemma run_failure I delay nplc expected fuel (w w1 w2 : world) msg :
  delta_setup I delay nplc expected
    (snd (status "Configuring Delta Mode on 6221/2182A..." w)) = (Val tt, w1) →
  delta_run fuel I expected (snd (status "Running Delta..." w1)) = (Exn msg, w2) →
  delta_sequence I delay nplc expected fuel w
  = (Val tt, snd (status ("Runtime Error: " +:+ msg) w2)).
Proof.
  intros Hsetup Hrun. rewrite sequence_unfold.
  unfold delta_setup, mbind, M_bind, bind in Hsetup.
  destruct (delta_link _) as [[[]|m1|] w3]; simpl in *; try discriminate.
  destruct (delta_configure _ _ _ _ _) as [[[]|m2|] w4]; simpl in *;
    try discriminate.
  injection Hsetup as ->. unfold try_except. now rewrite Hrun.
Qed.


(** ** The lock *)

Lemma start_disciplined : yields start_clicked (disciplined locked).
Proof. unfold start_clicked, status. repeat yield_step. Qed.

Lemma clear_disciplined : yields clear_clicked (disciplined locked).
Proof. unfold clear_clicked, status. repeat yield_step. Qed.

Lemma done_disciplined : yields run_done (disciplined locked).
Proof. unfold run_done, status. repeat yield_step. Qed.

Lemma close_disciplined : yields closeEvent (disciplined locked).
Proof. unfold closeEvent. repeat yield_step. Qed.

Lemma relay_disciplined cmd : yields (_relay_send cmd) (disciplined locked).
Proof. unfold _relay_send, status, sleep. repeat yield_step. Qed.

Lemma poll_once_disciplined I expected last_len :
  yields (poll_once I expected last_len) (disciplined locked).
Proof.
  unfold poll_once, read_buffer, stream_points, item, status, sleep, emit.
  repeat yield_step.
Qed.

Lemma poll_loop_disciplined I expected fuel : ∀ last_len,
  yields (poll_loop fuel I expected last_len) (disciplined locked).
Proof.
  induction fuel as [|fuel IH]; intros last_len; simpl; [yield_step|].
  yield_step; [apply poll_once_disciplined|].
  destruct a; [apply IH|yield_step].
Qed.

Lemma sequence_disciplined I delay nplc expected fuel :
  yields (delta_sequence I delay nplc expected fuel) (disciplined locked).
Proof.
  unfold delta_sequence, delta_setup, delta_link, delta_configure, delta_run,
    status, sleep.
  repeat lazymatch goal with
    | |- yields (_relay_send _) _ => apply relay_disciplined
    | |- yields (poll_loop _ _ _ _) _ => apply poll_loop_disciplined
    | |- _ => yield_step
    end.
Qed.

Lemma run_delta_disciplined fuel :
  yields (_run_delta_mode fuel) (disciplined locked).
Proof.
  unfold _run_delta_mode.
  repeat lazymatch goal with
    | |- yields (delta_sequence _ _ _ _ _) _ => apply sequence_disciplined
    | |- _ => yield_step
    end.
Qed.

Lemma worker_disciplined fuel : yields (worker_loop fuel) (disciplined locked).
Proof.
  induction fuel as [|fuel IH]; simpl; [yield_step|].
  unfold sleep, emit.
  repeat lazymatch goal with
    | |- yields (_run_delta_mode _) _ => apply run_delta_disciplined
    | |- yields (worker_loop _) _ => apply IH
    | |- _ => yield_step
    end.
Qed.

(** ** The three lists grow and shrink together *)











(** ** The currents of a run *)

#[local] Instance silent_stable : Stable (silent (Fld:=field) (Sig:=signal)).
Proof.
  split; [reflexivity|]. intros evs1 r evs2 H1 H2. unfold silent in *.
  now rewrite emitted_app, H1, H2.
Qed.

Lemma lock_silent {A} (m : M A) : yields m silent → yields (with_lock m) silent.
Proof.
  intros Hm. eapply yields_with_lock; [exact Hm| |].
  - intros r evs _ Hs. unfold silent in *. simpl.
    now rewrite emitted_app, Hs.
  - intros evs Hs. exact Hs.
Qed.

Ltac hush :=
  repeat lazymatch goal with
    | |- yields (with_lock _) silent => apply lock_silent
    | |- _ => yield_step
    end.

Lemma setup_silent I delay nplc expected :
  yields (delta_setup I delay nplc expected) silent.
Proof.
  unfold delta_setup, delta_link, delta_configure, _relay_send, status, sleep.
  hush.
Qed.

Lemma silent_then {A B} (m : M A) (k : A → M B) I i :
  yields m silent → (∀ a, yields (k a) (alternating I i)) →
  yields (bind m k) (alternating I i).
Proof.
  intros Hm Hk. eapply yields_bind; [exact Hm|exact Hk| | |].
  - intros evs1 r evs2 H1 H2. unfold silent, alternating in *.
    now rewrite emitted_app, H1.
  - intros msg evs Hs. unfold silent, alternating in *. now rewrite Hs.
  - intros evs Hs. unfold silent, alternating in *. now rewrite Hs.
Qed.

Lemma then_silent {A} (m : M A) (h : string → M A) I i :
  yields m (alternating I i) → (∀ e, yields (h e) silent) →
  yields (try_except m h) (alternating I i).
Proof.
  intros Hm Hh. eapply yields_try; [exact Hm|exact Hh|auto|auto|].
  intros msg evs1 r evs2 H1 H2. unfold silent, alternating in *.
  now rewrite emitted_app, H2, app_nil_r.
Qed.

Lemma run_alternates fuel I expected :
  yields (delta_run fuel I expected) (alternating I 0).
Proof.
  unfold delta_run, mbind, M_bind.
  apply silent_then; [hush|intros _].
  apply silent_then; [hush|intros _].
  apply poll_loop_alternates.
Qed.

Lemma sequence_alternates I delay nplc expected fuel :
  yields (delta_sequence I delay nplc expected fuel) (alternating I 0).
Proof.
  unfold delta_sequence, mbind, M_bind.
  apply silent_then; [unfold status; hush|intros _].
  apply silent_then.
  - apply yields_try with (Q1 := silent) (Q2 := silent).
    + apply stable_bind; [typeclasses eauto|apply setup_silent|intros _; hush].
    + intros e. unfold status. hush.
    + auto.
    + auto.
    + intros msg evs1 r evs2 H1 H2. now apply stable_app.
  - intros [|].
    + apply silent_then; [unfold status; hush|intros _].
      apply then_silent; [apply run_alternates|intros e; unfold status; hush].
    + apply yields_ret. reflexivity.
Qed.

Lemma label_even I i : label I (2 * i) = I.
Proof. unfold label. now rewrite Nat.even_mul. Qed.

Lemma label_odd I i : label I (2 * i + 1) = (- I)%float.
Proof.
  unfold label. rewrite Nat.add_1_r, Nat.even_succ, Nat.odd_mul. reflexivity.
Qed.

Lemma statuses_streamed I (w : world) last_len vals :
  statuses (streamed I w last_len vals) = [].
Proof.
  unfold streamed. destruct (_ <? _)%nat; [|reflexivity]. simpl.
  induction (points _ _ _ _) as [|p ps IH]; [reflexivity|exact IH].
Qed.

(** The turn that finds the buffer full ends the same way whether the last
    [*RST] is accepted or raises. *)
Lemma full_turn_statuses I expected last_len (w : world) :
  (expected ≤ Z.of_nat (length (buffer_at w 0)))%Z →
  fst (poll_once I expected last_len w) = Val None
  ∧ statuses (since w (snd (poll_once I expected last_len w)))
    = ["Buffer full. Finishing..."].
Proof.
  intros Hfull. rewrite buffer_at_0 in Hfull. apply Z.leb_le in Hfull.
  rewrite poll_once_eq, Hfull. split; [reflexivity|].
  erewrite since_eq by (simpl; reflexivity).
  simpl. now rewrite statuses_app, statuses_streamed.
Qed.

(** ** The claims about the delta-mode controller alone *)

(** C2.  A turn of the poll loop that finds at least [expected] readings in
    the buffer streams the readings from index [last_len] on, then shows
    "Buffer full", then sends [*RST], and the function returns; a turn that
    finds fewer goes round again.  So the loop returns exactly when some poll
    finds the buffer full, at the first such poll, and no exception leaves
    it. *)
Theorem poll_loop_completion I expected :
  (∀ last_len (w : world),
     let vals := buffer_at w 0 in
     let w' := snd (poll_once I expected last_len w) in
     ((expected ≤ Z.of_nat (length vals))%Z →
      fst (poll_once I expected last_len w) = Val None
      ∧ since w w'
        = EvQuery "TRAC:DATA?" :: streamed I w last_len vals
          ++ [EvStatus "Buffer full. Finishing..."; EvWrite "*RST"])
     ∧ ((Z.of_nat (length vals) < expected)%Z →
        (∃ next, fst (poll_once I expected last_len w) = Val (Some next))
        ∧ since w w'
          = EvQuery "TRAC:DATA?" :: streamed I w last_len vals
            ++ [EvSleep REFRESH_INTERVAL]))
  ∧ (∀ fuel last_len (w : world),
       (fst (poll_loop fuel I expected last_len w) = Val tt
        ↔ ∃ k, (k < fuel)%nat ∧ (expected ≤ Z.of_nat (length (buffer_at w k)))%Z)
       ∧ ∀ msg, fst (poll_loop fuel I expected last_len w) ≠ Exn msg)
  ∧ (∀ fuel last_len (w : world) k,
       (k < fuel)%nat →
       (expected ≤ Z.of_nat (length (buffer_at w k)))%Z →
       (∀ j, (j < k)%nat → (Z.of_nat (length (buffer_at w j)) < expected)%Z) →
       ∃ last_k (wk : world),
         bus wk = bus w ∧ bus_calls wk = (bus_calls w + k)%nat
         ∧ poll_once I expected last_k wk
           = (Val None, snd (poll_loop fuel I expected last_len w))).
Proof.
  split; [|split].
  - intros last_len w vals w'. subst vals w'. rewrite buffer_at_0, poll_once_eq.
    split.
    + intros Hfull. apply Z.leb_le in Hfull. rewrite Hfull. simpl.
      split; [reflexivity|]. now erewrite since_eq by (simpl; reflexivity).
    + intros Hshort. apply Z.leb_gt in Hshort. rewrite Hshort. simpl.
      split; [eauto|]. now erewrite since_eq by (simpl; reflexivity).
  - intros fuel last_len w. split.
    + apply poll_loop_returns_iff.
    + apply poll_loop_never_raises.
  - intros fuel last_len w k Hk Hfull Hbefore.
    destruct (poll_loop_last_turn I expected k fuel last_len w Hk Hfull Hbefore)
      as (last_k & wk & Hb & Hn & _ & _ & Heq).
    eauto.
Qed.


(** C9.  The points a delta run streams carry the currents [label I 0],
    [label I 1], ... in that order, where [I] is the delta current: [+I] at
    the even indices of the buffer and [-I] at the odd ones.  In each turn
    the reading at index [i] of the buffer goes with [label I i]. *)
Theorem current_labels_alternate fuel (w : world) :
  (let I := delta_I (self w) in
   let streamed_points := emitted (since w (snd (_run_delta_mode fuel w))) in
   omap current_of streamed_points
   = map (label I) (seq 0 (length streamed_points)))
  ∧ (∀ I expected last_len,
       let vals := buffer_at w 0 in
       let elapsed :=
         max0 (now_of w - default (now_of w) (start_time (self w)))%float in
       emitted (since w (snd (poll_once I expected last_len w)))
       = if (last_len <? length vals)%nat
         then points I elapsed last_len (drop last_len vals)
         else [])
  ∧ (∀ I i, label I (2 * i) = I ∧ label I (2 * i + 1) = (- I)%float).
Proof.
  split; [|split].
  - intros I pts. subst pts. rewrite run_is_sequence. fold I.
    destruct (sequence_alternates I (delta_delay (self w)) (nplc_spin (self w))
                (delta_count (self w)) fuel w) as (evs & Ht & Halt).
    now rewrite (since_eq _ _ _ Ht).
  - intros I expected last_len vals elapsed. subst vals elapsed.
    rewrite turn_emits, emitted_streamed, buffer_at_0. reflexivity.
  - intros I i. split; [apply label_even|apply label_odd].
Qed.

(** C10.  Start pressed while a run is in progress returns at once and
    changes nothing, the trace included; after Start has been pressed a run
    is in progress, so a second press in a row changes nothing. *)
Theorem start_is_idempotent (w : world) :
  (running (self w) = true → start_clicked w = (Val tt, w))
  ∧ start_clicked (snd (start_clicked w)) = (Val tt, snd (start_clicked w)).
Proof.
  split; [apply start_busy|]. apply start_busy. apply start_runs.
Qed.

End NanoFacts.

(** * The claims about both applications *)

Section Claims.
Context `{Py.Builtins}.

Lemma disciplined_since {St Fld Sig A} (m : Eff.M St Fld Sig A) shared :
  yields m (disciplined shared) →
  ∀ w, guarded shared false (since w (snd (m w))) = true.
Proof.
  intros Hm w. destruct (Hm w) as (evs & Ht & Hg & _).
  now rewrite (since_eq _ _ _ Ht).
Qed.

(** C4, as amended.  No exception leaves a turn of the picoammeter's loop or
    the delta sequence, so none leaves either worker loop.  In the
    picoammeter an exception in the acquisition is shown as [Error: ] and its
    text, and [running] and [paused] are set to [False].  In the delta
    sequence, an exception that leaves the set-up block is shown as [Setup
    Error: ] and its text, one that leaves the run block as [Runtime Error: ]
    and its text, and a failed relay as [Relay send failed: ] and its text.
    Three exceptions are not shown with their text: one raised by the poll
    query [TRAC:DATA?] is taken for an empty buffer, with no message at all;
    one raised by the link query is replaced by the [2182A not detected]
    connection error; and one raised by the [*RST] that ends a run is
    dropped. *)
Theorem errors_are_caught_and_reported :
  (∀ w : Pico.world, fst (Pico.update_iteration w) = Val tt)
  ∧ (∀ fuel (w : Pico.world) msg, fst (Pico.update_loop fuel w) ≠ Exn msg)
  ∧ (∀ (w w1 : Pico.world) msg,
       Pico.running (self w) = true → Pico.paused (self w) = false →
       Pico.acquire (Pico.total_run_time (self w)) (Pico.last_resume_time (self w))
                    (snd (Pico.snapshot w)) = (Exn msg, w1) →
       let w' := snd (Pico.update_iteration w) in
       w' = snd (Pico.acquisition_failed msg w1)
       ∧ statuses (since w1 w') = ["Error: " +:+ msg]
       ∧ Pico.running (self w') = false ∧ Pico.paused (self w') = false)
  ∧ (∀ fuel (w : Nano.world) msg,
       fst (Nano._run_delta_mode fuel w) ≠ Exn msg
       ∧ fst (Nano.worker_loop fuel w) ≠ Exn msg)
  ∧ (∀ I delay nplc expected fuel (w w1 : Nano.world) msg,
       Nano.delta_setup I delay nplc expected
         (snd (status "Configuring Delta Mode on 6221/2182A..." w)) = (Exn msg, w1) →
       Nano.delta_sequence I delay nplc expected fuel w
       = (Val tt, snd (status ("Setup Error: " +:+ msg) w1)))
  ∧ (∀ I delay nplc expected fuel (w w1 w2 : Nano.world) msg,
       Nano.delta_setup I delay nplc expected
         (snd (status "Configuring Delta Mode on 6221/2182A..." w)) = (Val tt, w1) →
       Nano.delta_run fuel I expected (snd (status "Running Delta..." w1))
         = (Exn msg, w2) →
       Nano.delta_sequence I delay nplc expected fuel w
       = (Val tt, snd (status ("Runtime Error: " +:+ msg) w2)))
  ∧ (∀ (w : Nano.world) cmd msg,
       bus w (bus_calls w) = Raises msg →
       Nano._relay_send cmd w
       = (Val tt,
          World (self w)
                (trace w ++ [EvWrite (Nano.relay cmd);
                             EvStatus ("Relay send failed: " +:+ msg)])
                (bus w) (S (bus_calls w)) (clock w) (clock_calls w) (files w)))
  ∧ (∀ (w : Nano.world) msg,
       bus w (bus_calls w) = Raises msg →
       Nano.read_buffer w
       = (Val [],
          World (self w) (trace w ++ [EvQuery "TRAC:DATA?"]) (bus w)
                (S (bus_calls w)) (clock w) (clock_calls w) (files w)))
  ∧ (∀ (w : Nano.world) a msg,
       bus w (bus_calls w) = Answers a →
       bus w (S (S (bus_calls w))) = Raises msg →
       fst (Nano.delta_link w) = Exn "2182A not detected. Check RS-232 cable.")
  ∧ (∀ I expected last_len (w : Nano.world) msg,
       (expected ≤ Z.of_nat (length (Nano.buffer_at w 0)))%Z →
       bus w (S (bus_calls w)) = Raises msg →
       fst (Nano.poll_once I expected last_len w) = Val None
       ∧ statuses (since w (snd (Nano.poll_once I expected last_len w)))
         = ["Buffer full. Finishing..."]).
Proof.
  repeat split; try (intros; now apply full_turn_statuses).
  - apply turn_returns.
  - apply loop_safe.
  - now rewrite (turn_failed w w1 msg).
  - rewrite (turn_failed w w1 msg) by assumption. apply failure_reported.
  - rewrite (turn_failed w w1 msg) by assumption. apply failure_reported.
  - rewrite (turn_failed w w1 msg) by assumption. apply failure_reported.
  - apply run_delta_safe.
  - apply worker_safe.
  - apply setup_failure.
  - apply run_failure.
  - apply relay_failure.
  - intros w msg Hraise. rewrite read_buffer_eq, Hraise. reflexivity.
  - intros w a msg Hfirst Hquery.
    destruct (link_answered w a Hfirst) as (evs & _ & _ & [[_ Hup]|[Hdown _]]).
    + destruct Hup as (s & Hs & _). congruence.
    + exact Hdown.
Qed.

(** C5, as amended.  In the picoammeter, Play, Pause and the polling loop
    write [running], [paused], [total_run_time] and [last_resume_time] only
    while they hold the lock.  In the delta-mode controller, Start, Clear,
    the slot of [done], the delta sequence, the worker loop and the shutdown
    write [running] and [start_time] only while they hold the lock; the
    shutdown writes [exiting] after it has released it. *)
Theorem flags_are_written_under_the_lock fuel :
  (∀ w : Pico.world,
     guarded Pico.shared false (since w (snd (Pico.play_reading w))) = true
     ∧ guarded Pico.shared false (since w (snd (Pico.pause_reading w))) = true
     ∧ guarded Pico.shared false (since w (snd (Pico.update_iteration w))) = true
     ∧ guarded Pico.shared false (since w (snd (Pico.update_loop fuel w))) = true)
  ∧ (∀ w : Nano.world,
       guarded Nano.locked false (since w (snd (Nano.start_clicked w))) = true
       ∧ guarded Nano.locked false (since w (snd (Nano.clear_clicked w))) = true
       ∧ guarded Nano.locked false (since w (snd (Nano.run_done w))) = true
       ∧ guarded Nano.locked false (since w (snd (Nano._run_delta_mode fuel w))) = true
       ∧ guarded Nano.locked false (since w (snd (Nano.worker_loop fuel w))) = true
       ∧ guarded Nano.locked false (since w (snd (Nano.closeEvent w))) = true
       ∧ ∃ rest, since w (snd (Nano.closeEvent w))
                 = [EvAcquire; EvSet Nano.Frunning; EvRelease; EvSet Nano.Fexiting]
                   ++ rest).
Proof.
  split.
  - intros w. repeat split.
    + apply disciplined_since, play_disciplined.
    + apply disciplined_since, pause_disciplined.
    + apply disciplined_since, turn_disciplined.
    + apply disciplined_since, loop_disciplined.
  - intros w. repeat split.
    + apply disciplined_since, start_disciplined.
    + apply disciplined_since, clear_disciplined.
    + apply disciplined_since, done_disciplined.
    + apply disciplined_since, run_delta_disciplined.
    + apply disciplined_since, worker_disciplined.
    + apply disciplined_since, close_disciplined.
    + destruct w as [s tr b n c k fs]. cbv delta [Nano.closeEvent]. exec.
      destruct (b n); exec; [destruct (b (S n)); exec|]; eexists; reflexivity.
Qed.


End Claims.

(** * The claims on the example worlds *)

Import Demo Examples.




Lemma idle_turn_only_sleeps_witness :
  Pico.update_iteration bench
  = (Val tt, World (self bench) (trace bench ++ [EvAcquire; EvRelease; EvSleep 0.3])
                   (bus bench) (bus_calls bench) (clock bench) (clock_calls bench)
                   (files bench)).
Proof.
  apply (proj1 (idle_turn_only_sleeps (H:=Demo.builtins) bench)). reflexivity.
Defined.



(** From [polling] the third poll is the first to find three readings, so
    five turns are enough for the loop to return. *)
Lemma poll_loop_completion_witness :
  fst (Nano.poll_loop 5 100e-6 3 0 polling) = Val tt.
Proof.
  apply (proj1 (proj2 (poll_loop_completion (H:=Demo.builtins) 100e-6 3))).
  exists 2%nat. split; [lia|]. vm_compute. discriminate.
Defined.


(** C4 as it is written fails in the run loop: on [rig] the second poll of
    the buffer raises [VI_ERROR_TMO]; the run goes on to its end, and none of
    the four status messages it shows carries that text. *)
Lemma poll_timeout_is_not_reported :
  bus rig 17 = Raises "VI_ERROR_TMO"
  ∧ nth 17 (sent (trace (snd (Nano._run_delta_mode 5 rig)))) "" = "TRAC:DATA?"
  ∧ fst (Nano._run_delta_mode 5 rig) = Val tt
  ∧ statuses (trace (snd (Nano._run_delta_mode 5 rig)))
    = [ "Configuring Delta Mode on 6221/2182A...";
        "Instruments synced. Sending parameters...";
        "Running Delta...";
        "Buffer full. Finishing..." ].
Proof. repeat split; vm_compute; reflexivity. Qed.

(** A relay that fails on [rig] is reported with its text. *)
Lemma errors_are_caught_and_reported_witness :
  statuses (since timed_out (snd (Nano._relay_send "*RST" timed_out)))
  = ["Relay send failed: VI_ERROR_TMO"].
Proof.
  rewrite (proj1 (proj2 (proj2 (proj2 (proj2 (proj2 (proj2
             (errors_are_caught_and_reported (H:=Demo.builtins))))))))
             timed_out "*RST" "VI_ERROR_TMO" eq_refl).
  reflexivity.
Defined.

(** C5 as it is written fails at the shutdown: [closeEvent] writes [exiting]
    with the lock released. *)
Lemma shutdown_writes_exiting_unlocked :
  guarded Nano.shared false (since rig (snd (Nano.closeEvent rig))) = false
  ∧ since rig (snd (Nano.closeEvent rig))
    = [EvAcquire; EvSet Nano.Frunning; EvRelease; EvSet Nano.Fexiting;
       EvWrite "OUTP OFF"; EvWrite "*RST"].
Proof. split; vm_compute; reflexivity. Qed.

(** The slip beside it: [clear_data] takes no lock at all. *)
Remark clear_data_takes_no_lock :
  guarded Pico.shared false (since started (snd (Pico.clear_data true started)))
  = false.
Proof. vm_compute. reflexivity. Qed.

Lemma start_is_idempotent_witness :
  Nano.start_clicked running_rig = (Val tt, running_rig).
Proof.
  apply (proj1 (start_is_idempotent running_rig)). reflexivity.
Defined.

(** The five points of the run on [rig], and their currents. *)
Example currents_on_the_rig :
  omap Nano.current_of (emitted (trace (snd (Nano._run_delta_mode 5 rig))))
  = [100e-6; -100e-6; 100e-6]%float.
Proof. vm_compute. reflexivity. Qed.
